(** * ts-joi-schema-generator: the declaration-to-schema compiler

    A shallow embedding of [src/lib/index.ts] (class [Compiler]) and the
    properties of its translation rules.

    The compiler walks a TypeScript syntax tree and returns generated source
    text.  The tree is embedded as the inductive type [Node]; what the code asks
    of the type checker (symbol names, folded enum constants, the declarations
    of an imported module) is stored at the node where the code asks for it.
    The one piece of mutable state, [exportedNames], is threaded explicitly and
    a JavaScript [throw] is an explicit outcome. *)

From Stdlib Require Import String Ascii List Bool ZArith Lia DecimalString.
Import ListNotations.
Local Open Scope string_scope.

(** ** JavaScript string and array primitives used by the compiler

    Source text and generated text are strings of characters; everything the
    compiler itself adds is ASCII. *)

Module JS.

Definition newline : string := String (ascii_of_nat 10) EmptyString.
Definition dquote : string := String (ascii_of_nat 34) EmptyString.

(** [s.startsWith(p)] *)
Definition startsWith (s p : string) : bool := String.prefix p s.

Definition clamp (len i : Z) : Z := Z.max 0 (Z.min i len).

(** [s.substring(start, end)]: both indices are clamped to [0, length] and
    swapped when [start > end]. *)
Definition substring (s : string) (start end_ : Z) : string :=
  let len := Z.of_nat (String.length s) in
  let a := clamp len start in
  let b := clamp len end_ in
  let lo := Z.min a b in
  let hi := Z.max a b in
  String.substring (Z.to_nat lo) (Z.to_nat (hi - lo)) s.

(** [xs.join(sep)] on an array of strings *)
Definition join (sep : string) (xs : list string) : string := String.concat sep xs.

(** [s.replace(/\n/g, r)] *)
Fixpoint replace_newlines (r s : string) : string :=
  match s with
  | EmptyString => EmptyString
  | String c rest =>
      if Ascii.eqb c (ascii_of_nat 10)
      then r ++ replace_newlines r rest
      else String c (replace_newlines r rest)
  end.

(** [xs.indexOf(x) !== -1] *)
Definition includes (x : string) (xs : list string) : bool := existsb (String.eqb x) xs.

(** Truthiness of an optional boolean and of an optional string. *)
Definition truthy_bool (b : option bool) : bool :=
  match b with Some true => true | _ => false end.

Definition truthy_string (s : option string) : bool :=
  match s with
  | Some s' => negb (String.eqb s' "")
  | None => false
  end.

End JS.

(** ** Outcomes: a value together with the exported names, or a thrown error *)

Inductive JSError : Type :=
| Error (message : string)
| TypeError (message : string).

Inductive Completion (A : Type) : Type :=
| Return (value : A)
| Throw (e : JSError).
Arguments Return {A} value.
Arguments Throw {A} e.

(** A computation of the compiler: reads and extends [this.exportedNames]. *)
Definition M (A : Type) : Type := list string -> Completion (A * list string).

Definition ret {A} (a : A) : M A := fun names => Return (a, names).

Definition throw {A} (e : JSError) : M A := fun _ => Throw e.

Definition bind {A B} (m : M A) (k : A -> M B) : M B :=
  fun names =>
    match m names with
    | Return (a, names') => k a names'
    | Throw e => Throw e
    end.

Notation "x <- m ;; k" := (bind m (fun x => k))
  (at level 61, m at next level, right associativity).

(** [xs.map(f)] where [f] may throw or push exported names: left to right, the
    first throw aborts. *)
Definition mapM {A B} (f : A -> M B) : list A -> M (list B) :=
  fix go (xs : list A) : M (list B) :=
    match xs with
    | [] => ret []
    | x :: rest => y <- f x ;; ys <- go rest ;; ret (y :: ys)
    end.

(** [this.exportedNames.push(name)] *)
Definition push_exportedName (name : string) : M unit :=
  fun names => Return (tt, (names ++ [name])%list).

(** ** The syntax tree *)

(** A name node, with its source text and the symbol the checker has for it
    ([checker.getSymbolAtLocation]), if any. *)
Record Name : Type := { name_text : string; name_symbol : option string }.

(** [string | number]: a folded enum constant.  The compiler never computes with
    the number, it only hands it to [ts.getTextOfConstantValue]. *)
Inductive ConstantValue : Type :=
| StringValue (s : string)
| NumberValue (n : Z).

(** An enum member with the answer of [checker.getConstantValue] for it. *)
Record EnumMember : Type :=
  { member_name : Name; constantValue : option ConstantValue }.

(** An import or export specifier: [propertyName as name], or [name]. *)
Record Specifier : Type := { propertyName : option string; name : string }.

Inductive NamedImportBindings : Type :=
| NamespaceImport (text : string)
| NamedImports (elements : list Specifier).

Record ImportClause : Type := { namedBindings : option NamedImportBindings }.

Record HeritageClause (N : Type) : Type := { types : list N }.
Arguments types {N} h.
Arguments Build_HeritageClause {N} types.

#[local] Set Warnings "-register-all".

Inductive Node : Type :=
| Identifier (text : string)
| ParameterDeclaration (name : Name) (questionToken : bool) (type : option Node)
| PropertySignature (name : Name) (questionToken : bool) (type : option Node)
| MethodSignature (name : Name) (parameters : list Node) (type : option Node)
| TypeReference (text : string) (typeName : string) (typeArguments : option (list Node))
| FunctionType (parameters : list Node) (type : option Node)
| TypeLiteral (members : list Node)
| ArrayType (elementType : Node)
| TupleType (elementTypes : list Node)
| UnionType (types : list Node)
| LiteralType (text : string)
| EnumDeclaration (jsDocTags : list string) (name : Name) (members : list EnumMember)
| InterfaceDeclaration (jsDocTags : list string) (name : Name) (members : list Node)
    (heritageClauses : option (list (HeritageClause Node)))
| TypeAliasDeclaration (jsDocTags : list string) (name : Name) (type : Node)
| ExpressionWithTypeArguments (expression : Node)
| ParenthesizedType (type : Node)
| ExportDeclaration (exportClause : option (list Specifier)) (moduleSpecifier : option string)
| ImportDeclaration (importClause : option ImportClause) (moduleSpecifier : string)
    (importedSym : option (option (list Node)))
| SourceFile (fileName : string) (statements : list Node)
| AnyKeyword
| NumberKeyword
| ObjectKeyword
| BooleanKeyword
| StringKeyword
| SymbolKeyword
| UndefinedKeyword
| NullKeyword
| NeverKeyword
| IndexSignature (text : string)
| OtherKind (kind : string) (text : string).

(** ** Options and the library functions the compiler calls *)

Record ICompilerOptions : Type :=
  { ignoreGenerics : option bool;
    ignoreIndexSignature : option bool;
    inlineImports : option bool;
    outDir : option string;
    suffix : string }.

Definition defaultSuffix : string := "-schema".

Definition defaultOptions : ICompilerOptions :=
  {| ignoreGenerics := Some false;
     ignoreIndexSignature := Some false;
     inlineImports := Some false;
     outDir := None;
     suffix := defaultSuffix |}.

(** Functions of TypeScript and of Node's [path] module that the compiler calls
    and that are not part of this repository. *)
Record Host : Type :=
  { ts_getTextOfConstantValue : ConstantValue -> string;
    path_extname : string -> string;
    path_dirname : string -> string;
    path_basename : string -> string -> string }.

Definition ignoreNode : string := "".

(** ** The compiler

    One [Compiler] instance: the host functions, the options and the identity of
    the root source file are fixed for the whole compilation. *)

Section Compiler.

Variable host : Host.
Variable options : ICompilerOptions.
(** [this.topNode], identified by its file name. *)
Variable topNode : string.

Definition getName (id : Name) : string :=
  match name_symbol id with
  | Some symbol => symbol
  | None => "unknown"
  end.

Definition indent (content : string) : string :=
  JS.replace_newlines (JS.newline ++ "  ") content.

Definition hasTag (jsDocTags : list string) (tagName : string) : bool :=
  existsb (fun tag => String.eqb tag ("@" ++ tagName)) jsDocTags.

Definition getTextOfConstantValue (value : option ConstantValue) : string :=
  match value with
  | None => "undefined"
  | Some v => ts_getTextOfConstantValue host v
  end.

(** The message of the two [throw new Error(`Node ... not supported ...`)]. *)
Definition notSupported (kind text : string) : JSError :=
  Error ("Node " ++ kind ++ " not supported by ts-joi-schema-generator: " ++ text).

Definition genericsNotSupported (text : string) : JSError :=
  Error ("Generics are not yet supported by ts-joi-schema-generator: " ++ text).

(** Reading [.kind] of [undefined]: what [compileNode(node.typeArguments[0])]
    does on an empty argument list. *)
Definition kindOfUndefined : JSError :=
  TypeError "Cannot read property 'kind' of undefined".

(** The methods of the class, written over the recursive call [compileNode];
    its first argument tells whether the parent of the node is a source file
    ([ts.isSourceFile(node.parent)]), which in a tree is known to the caller. *)
Section Methods.

Variable compileNode : bool -> Node -> M string.

Definition compileOptType (typeNode : option Node) : M string :=
  match typeNode with
  | Some t => compileNode false t
  | None => ret "Joi.any()"
  end.

Definition _compileIdentifier (text : string) : M string := ret text.

Definition _compileParameterDeclaration
    (name : Name) (questionToken : bool) (type : option Node) : M string :=
  let name := getName name in
  let isOpt := if questionToken then ", optional" else "" in
  t <- compileOptType type ;;
  ret ("Param('" ++ name ++ "', " ++ t ++ isOpt ++ ")").

Definition _compilePropertySignature
    (name : Name) (questionToken : bool) (type : option Node) : M string :=
  let name := getName name in
  prop <- compileOptType type ;;
  let value := if questionToken then prop else prop ++ ".required()" in
  ret ("'" ++ name ++ "': " ++ value).

Definition _compileMethodSignature (name : Name) : M string :=
  let name := getName name in
  ret ("'" ++ name ++ "': Joi.func().required()").

Definition _compileTypeReferenceNode
    (text typeName : string) (typeArguments : option (list Node)) : M string :=
  match typeArguments with
  | None =>
      if String.eqb typeName "Date" then ret "Joi.date()"
      else if String.eqb typeName "Buffer" then ret "Joi.binary()"
      else ret ("Joi.lazy(() => " ++ typeName ++ ")")
  | Some args =>
      if String.eqb typeName "Array" then
        match args with
        | first :: _ =>
            item <- compileNode false first ;;
            ret ("Joi.array().items(" ++ item ++ ")")
        | [] => throw kindOfUndefined
        end
      else if JS.truthy_bool (ignoreGenerics options) then ret "Joi.any()"
      else throw (genericsNotSupported text)
  end.

Definition _compileFunctionTypeNode : M string := ret "Joi.func()".

Definition _compileTypeLiteralNode (members : list Node) : M string :=
  compiled <- mapM (compileNode false) members ;;
  let members := map (fun n => "  " ++ indent n ++ "," ++ JS.newline) compiled in
  ret ("Joi.object().keys({" ++ JS.newline ++ JS.join "" members ++ "})").

Definition _compileArrayTypeNode (elementType : Node) : M string :=
  item <- compileNode false elementType ;;
  ret ("Joi.array().items(" ++ item ++ ")").

Definition _compileTupleTypeNode (elementTypes : list Node) : M string :=
  members <- mapM (compileNode false) elementTypes ;;
  ret ("Joi.array().ordered(" ++ JS.join ", " members ++ ")").

Definition _compileUnionTypeNode (types : list Node) : M string :=
  members <- mapM (compileNode false) types ;;
  ret ("Joi.alternatives(" ++ JS.join ", " members ++ ")").

Definition _compileLiteralTypeNode (text : string) : M string :=
  ret ("Joi.valid(" ++ text ++ ")").

Definition _compileEnumDeclaration
    (jsDocTags : list string) (name : Name) (members : list EnumMember) : M string :=
  if negb (hasTag jsDocTags "schema") then ret ""
  else
    let name := getName name in
    let values := map (fun m => getTextOfConstantValue (constantValue m)) members in
    _ <- push_exportedName name ;;
    ret ("export const " ++ name ++ " = Joi.valid(" ++ JS.join ", " values ++ ").strict();").

(** The loop over [node.heritageClauses]: every type of every clause is
    compiled and pushed on [extend], in order. *)
Definition compileHeritageClauses
    (heritageClauses : option (list (HeritageClause Node))) : M (list string) :=
  match heritageClauses with
  | None => ret []
  | Some clauses =>
      perClause <- mapM (fun h => mapM (compileNode false) (types h)) clauses ;;
      ret (List.concat perClause)
  end.

Definition _compileInterfaceDeclaration
    (jsDocTags : list string) (name : Name) (members : list Node)
    (heritageClauses : option (list (HeritageClause Node))) : M string :=
  if negb (hasTag jsDocTags "schema") then ret ""
  else
    let name := getName name in
    compiled <- mapM (compileNode false) members ;;
    let members :=
      map (fun n => "  " ++ indent n ++ "," ++ JS.newline)
          (filter (fun n => negb (String.eqb n ignoreNode)) compiled) in
    extend <- compileHeritageClauses heritageClauses ;;
    if JS.includes "Array" extend then ret ""
    else
      _ <- push_exportedName name ;;
      let concats := map (fun extend => ".concat(" ++ extend ++ ")") extend in
      ret ("export const " ++ name ++ " = Joi.object()" ++ JS.join "" concats
           ++ ".keys({" ++ JS.newline ++ JS.join "" members ++ "}).strict();").

Definition _compileTypeAliasDeclaration
    (jsDocTags : list string) (name : Name) (type : Node) : M string :=
  if negb (hasTag jsDocTags "schema") then ret ""
  else
    let name := getName name in
    _ <- push_exportedName name ;;
    compiled <- compileNode false type ;;
    let fullType :=
      if JS.startsWith compiled JS.dquote then "Joi.valid(" ++ compiled ++ ")" else compiled in
    ret ("export const " ++ name ++ " = " ++ fullType ++ ".strict();").

Definition _compileExpressionWithTypeArguments (expression : Node) : M string :=
  compileNode false expression.

Definition _compileParenthesizedTypeNode (type : Node) : M string :=
  compileNode false type.

(** One element of an import or export clause. *)
Definition specifierPart (element : Specifier) : string :=
  match propertyName element with
  | Some property => property ++ " as " ++ name element
  | None => name element
  end.

(** The [for] loop over the elements: each pushes its part on the clause,
    all but the first behind a comma. *)
Fixpoint pushSpecifiers
    (first : bool) (elements : list Specifier) (clause : list string) : list string :=
  match elements with
  | [] => clause
  | element :: rest =>
      let part := specifierPart element in
      let pushed := if first then part else ", " ++ part in
      pushSpecifiers false rest (List.app clause [pushed])
  end.

(** "format to new module path": the same four lines in the export and in
    the import method. *)
Definition outPath (moduleSpecifier : string) : string :=
  let filePath := moduleSpecifier in
  let ext := path_extname host filePath in
  let dir := if JS.truthy_string (outDir options) then "./" else path_dirname host filePath in
  dir ++ (path_basename host filePath ext ++ suffix options).

(** [raw.substring(1, raw.length - 1)]: the specifier without its quotes. *)
Definition unquote (rawModuleSpecifier : string) : string :=
  JS.substring rawModuleSpecifier 1 (Z.of_nat (String.length rawModuleSpecifier) - 1).

Definition _compileExportDeclaration
    (exportClause : option (list Specifier)) (moduleSpecifier : option string) : M string :=
  match exportClause, moduleSpecifier with
  | Some elements, Some rawModuleSpecifier =>
      let moduleSpecifier := unquote rawModuleSpecifier in
      if JS.startsWith moduleSpecifier "." then
        let exportClause := pushSpecifiers true elements ["export { "] in
        let exportClause :=
          List.app exportClause [" } from '" ++ outPath moduleSpecifier ++ "'"] in
        ret (JS.join "" exportClause)
      else ret ""
  | _, _ => ret ""
  end.

(** The first half of [_compileImportDeclaration]: the rewritten import it
    returns early with, if any. *)
Definition rewrittenImport
    (importClause : option ImportClause) (rawModuleSpecifier : string) : option string :=
  match importClause with
  | Some clause =>
      let moduleSpecifier := unquote rawModuleSpecifier in
      if JS.startsWith moduleSpecifier "." then
        match namedBindings clause with
        | Some (NamedImports elements) =>
            let importClause := pushSpecifiers true elements ["import { "] in
            let importClause :=
              List.app importClause [" } from '" ++ outPath moduleSpecifier ++ "'"] in
            Some (JS.join "" importClause)
        | _ => None
        end
      else None
  | None => None
  end.

(** A module symbol is declared by source files and ambient module
    declarations, which sit at the top level of their file. *)
Definition _compileImportDeclaration
    (importClause : option ImportClause) (rawModuleSpecifier : string)
    (importedSym : option (option (list Node))) : M string :=
  match rewrittenImport importClause rawModuleSpecifier with
  | Some text => ret text
  | None =>
      if JS.truthy_bool (inlineImports options) then
        match importedSym with
        | Some (Some declarations) =>
            compiled <- mapM (compileNode true) declarations ;;
            ret (JS.join "" compiled)
        | _ => ret ""
        end
      else ret ""
  end.

Definition _compileSourceFileStatements (statements : list Node) : M string :=
  compiled <- mapM (compileNode true) statements ;;
  ret (JS.join (JS.newline ++ JS.newline)
         (filter (fun s => negb (String.eqb s "")) compiled)).

Definition _compileSourceFile (fileName : string) (statements : list Node) : M string :=
  if negb (String.eqb fileName topNode) then _compileSourceFileStatements statements
  else
    let prefix :=
      "import * as Joi from " ++ JS.dquote ++ "joi" ++ JS.dquote ++ ";" ++ JS.newline
      ++ "// tslint:disable:object-literal-key-quotes" ++ JS.newline ++ JS.newline in
    body <- _compileSourceFileStatements statements ;;
    ret (prefix ++ body ++ JS.newline ++ JS.newline).

Definition _compileIndexSignatureDeclaration (text : string) : M string :=
  if JS.truthy_bool (ignoreIndexSignature options) then ret ignoreNode
  else throw (notSupported "IndexSignature" text).

End Methods.

Fixpoint compileNode (parentIsSourceFile : bool) (node : Node) {struct node} : M string :=
  match node with
  | Identifier text => _compileIdentifier text
  | ParameterDeclaration name questionToken type =>
      _compileParameterDeclaration compileNode name questionToken type
  | PropertySignature name questionToken type =>
      _compilePropertySignature compileNode name questionToken type
  | MethodSignature name _ _ => _compileMethodSignature name
  | TypeReference text typeName typeArguments =>
      _compileTypeReferenceNode compileNode text typeName typeArguments
  | FunctionType _ _ => _compileFunctionTypeNode
  | TypeLiteral members => _compileTypeLiteralNode compileNode members
  | ArrayType elementType => _compileArrayTypeNode compileNode elementType
  | TupleType elementTypes => _compileTupleTypeNode compileNode elementTypes
  | UnionType types => _compileUnionTypeNode compileNode types
  | LiteralType text => _compileLiteralTypeNode text
  | EnumDeclaration jsDocTags name members => _compileEnumDeclaration jsDocTags name members
  | InterfaceDeclaration jsDocTags name members heritageClauses =>
      _compileInterfaceDeclaration compileNode jsDocTags name members heritageClauses
  | TypeAliasDeclaration jsDocTags name type =>
      _compileTypeAliasDeclaration compileNode jsDocTags name type
  | ExpressionWithTypeArguments expression =>
      _compileExpressionWithTypeArguments compileNode expression
  | ParenthesizedType type => _compileParenthesizedTypeNode compileNode type
  | ExportDeclaration exportClause moduleSpecifier =>
      _compileExportDeclaration exportClause moduleSpecifier
  | ImportDeclaration importClause moduleSpecifier importedSym =>
      _compileImportDeclaration compileNode importClause moduleSpecifier importedSym
  | SourceFile fileName statements => _compileSourceFile compileNode fileName statements
  | AnyKeyword => ret "Joi.any()"
  | NumberKeyword => ret "Joi.number()"
  | ObjectKeyword => ret "Joi.object()"
  | BooleanKeyword => ret "Joi.boolean()"
  | StringKeyword => ret "Joi.string()"
  | SymbolKeyword => ret "Joi.symbol()"
  | UndefinedKeyword => ret "Joi.valid(undefined)"
  | NullKeyword => ret "Joi.valid(null)"
  | NeverKeyword => ret "Joi.forbidden()"
  | IndexSignature text => _compileIndexSignatureDeclaration text
  | OtherKind kind text =>
      (* Skip top-level statements that we haven't handled. *)
      if parentIsSourceFile then ret "" else throw (notSupported kind text)
  end.

End Compiler.

(** [Compiler.compile], after the program has been loaded: a fresh instance, with
    no exported names yet, compiles the root source file. *)
Definition Compiler_compile (host : Host) (options : ICompilerOptions)
    (fileName : string) (statements : list Node) : Completion string :=
  match compileNode host options fileName false (SourceFile fileName statements) [] with
  | Return (text, _) => Return text
  | Throw e => Throw e
  end.

(** ** Node's [path] module on POSIX

    The three functions of Node's [path] the compiler calls, after the loops of
    Node's [lib/path.js]; [-1] is its "not found" index. *)

Module Posix.

Local Open Scope Z_scope.

Definition isSlash (path : string) (i : nat) : bool :=
  match String.get i path with
  | Some c => Ascii.eqb c "/"%char
  | None => false
  end.

Definition isDot (path : string) (i : nat) : bool :=
  match String.get i path with
  | Some c => Ascii.eqb c "."%char
  | None => false
  end.

Definition sameChar (a : string) (i : nat) (b : string) (j : Z) : bool :=
  match String.get i a, String.get (Z.to_nat j) b with
  | Some c, Some d => Ascii.eqb c d
  | _, _ => false
  end.

(** [path.slice(start, end)] for indices within the string. *)
Definition slice (path : string) (start end_ : Z) : string :=
  String.substring (Z.to_nat start) (Z.to_nat (end_ - start)) path.

(** [for (i = path.length - 1; i >= 1; --i)] of [dirname]; returns [end]. *)
Fixpoint dirname_loop (path : string) (i : nat) (matchedSlash : bool) : Z :=
  match i with
  | O => -1
  | S i' =>
      if isSlash path i then
        if negb matchedSlash then Z.of_nat i else dirname_loop path i' matchedSlash
      else dirname_loop path i' false
  end.

Definition dirname (path : string) : string :=
  if Nat.eqb (String.length path) 0 then "."%string
  else
    let hasRoot := isSlash path 0 in
    let end_ := dirname_loop path (String.length path - 1) true in
    if end_ =? -1 then (if hasRoot then "/" else ".")%string
    else if hasRoot && (end_ =? 1) then "//"%string
    else slice path 0 end_.

Record ExtState : Type :=
  { startDot : Z; startPart : Z; ext_end : Z; ext_matchedSlash : bool; preDotState : Z }.

(** [for (i = path.length - 1; i >= 0; --i)] of [extname]; [n] is [i + 1]. *)
Fixpoint extname_loop (path : string) (n : nat) (st : ExtState) : ExtState :=
  match n with
  | O => st
  | S i =>
      if isSlash path i then
        if negb (ext_matchedSlash st)
        then {| startDot := startDot st; startPart := Z.of_nat i + 1; ext_end := ext_end st;
                ext_matchedSlash := ext_matchedSlash st; preDotState := preDotState st |}
        else extname_loop path i st
      else
        let st1 :=
          if ext_end st =? -1
          then {| startDot := startDot st; startPart := startPart st;
                  ext_end := Z.of_nat i + 1; ext_matchedSlash := false;
                  preDotState := preDotState st |}
          else st in
        let st2 :=
          if isDot path i then
            if startDot st1 =? -1
            then {| startDot := Z.of_nat i; startPart := startPart st1; ext_end := ext_end st1;
                    ext_matchedSlash := ext_matchedSlash st1; preDotState := preDotState st1 |}
            else if negb (preDotState st1 =? 1)
            then {| startDot := startDot st1; startPart := startPart st1;
                    ext_end := ext_end st1; ext_matchedSlash := ext_matchedSlash st1;
                    preDotState := 1 |}
            else st1
          else if negb (startDot st1 =? -1)
          then {| startDot := startDot st1; startPart := startPart st1; ext_end := ext_end st1;
                  ext_matchedSlash := ext_matchedSlash st1; preDotState := -1 |}
          else st1 in
        extname_loop path i st2
  end.

Definition extname (path : string) : string :=
  let st :=
    extname_loop path (String.length path)
      {| startDot := -1; startPart := 0; ext_end := -1; ext_matchedSlash := true;
         preDotState := 0 |} in
  if (startDot st =? -1) || (ext_end st =? -1) || (preDotState st =? 0)
     || ((preDotState st =? 1) && (startDot st =? ext_end st - 1)
         && (startDot st =? startPart st + 1))
  then ""%string
  else slice path (startDot st) (ext_end st).

Record BaseState : Type :=
  { base_start : Z; base_end : Z; base_matchedSlash : bool; extIdx : Z;
    firstNonSlashEnd : Z }.

(** The loop of [basename] when an extension is given; [n] is [i + 1]. *)
Fixpoint basename_ext_loop (path ext : string) (n : nat) (st : BaseState) : BaseState :=
  match n with
  | O => st
  | S i =>
      if isSlash path i then
        if negb (base_matchedSlash st)
        then {| base_start := Z.of_nat i + 1; base_end := base_end st;
                base_matchedSlash := base_matchedSlash st; extIdx := extIdx st;
                firstNonSlashEnd := firstNonSlashEnd st |}
        else basename_ext_loop path ext i st
      else
        let st1 :=
          if firstNonSlashEnd st =? -1
          then {| base_start := base_start st; base_end := base_end st;
                  base_matchedSlash := false; extIdx := extIdx st;
                  firstNonSlashEnd := Z.of_nat i + 1 |}
          else st in
        let st2 :=
          if extIdx st1 >=? 0 then
            if sameChar path i ext (extIdx st1) then
              if extIdx st1 - 1 =? -1
              then {| base_start := base_start st1; base_end := Z.of_nat i;
                      base_matchedSlash := base_matchedSlash st1; extIdx := -1;
                      firstNonSlashEnd := firstNonSlashEnd st1 |}
              else {| base_start := base_start st1; base_end := base_end st1;
                      base_matchedSlash := base_matchedSlash st1; extIdx := extIdx st1 - 1;
                      firstNonSlashEnd := firstNonSlashEnd st1 |}
            else {| base_start := base_start st1; base_end := firstNonSlashEnd st1;
                    base_matchedSlash := base_matchedSlash st1; extIdx := -1;
                    firstNonSlashEnd := firstNonSlashEnd st1 |}
          else st1 in
        basename_ext_loop path ext i st2
  end.

(** The loop of [basename] without an extension; the state is
    [(start, end, matchedSlash)]. *)
Fixpoint basename_loop (path : string) (n : nat) (st : Z * Z * bool) : Z * Z * bool :=
  match n with
  | O => st
  | S i =>
      let '(start, end_, matchedSlash) := st in
      if isSlash path i then
        if negb matchedSlash then (Z.of_nat i + 1, end_, matchedSlash)
        else basename_loop path i st
      else if end_ =? -1 then basename_loop path i (start, Z.of_nat i + 1, false)
      else basename_loop path i st
  end.

Definition basename (path ext : string) : string :=
  let len := String.length path in
  if Nat.ltb 0 (String.length ext) && Nat.leb (String.length ext) len then
    if String.eqb ext path then ""%string
    else
      let st :=
        basename_ext_loop path ext len
          {| base_start := 0; base_end := -1; base_matchedSlash := true;
             extIdx := Z.of_nat (String.length ext) - 1; firstNonSlashEnd := -1 |} in
      let end_ :=
        if base_start st =? base_end st then firstNonSlashEnd st
        else if base_end st =? -1 then Z.of_nat len
        else base_end st in
      slice path (base_start st) end_
  else
    let '(start, end_, _) := basename_loop path len (0, -1, true) in
    if end_ =? -1 then ""%string else slice path start end_.

End Posix.

(** A stand-in for [ts.getTextOfConstantValue], right on the constants of the
    examples below, which are small integers: an integer in decimal, a string
    between double quotes.  It does not escape the characters of a string and
    does not print a large number in exponent form as JavaScript does.  No
    theorem depends on it: they hold for every [Host]. *)
Definition textOfConstantValue (value : ConstantValue) : string :=
  match value with
  | StringValue s => JS.dquote ++ s ++ JS.dquote
  | NumberValue n => NilZero.string_of_int (Z.to_int n)
  end.

Definition node_host : Host :=
  {| ts_getTextOfConstantValue := textOfConstantValue;
     path_extname := Posix.extname;
     path_dirname := Posix.dirname;
     path_basename := Posix.basename |}.


(** ** Record fields and object-shape entries *)

(** A field of a record type: a property signature. *)
Record Field : Type :=
  { field_name : Name; field_optional : bool; field_type : option Node }.

Definition fieldNode (f : Field) : Node :=
  PropertySignature (field_name f) (field_optional f) (field_type f).

Definition requiredFields (fields : list Field) : list Field :=
  filter (fun f => negb (field_optional f)) fields.

Definition optionalFields (fields : list Field) : list Field :=
  filter field_optional fields.

(** An entry of an object shape: a key, the rendered expression for it, and
    whether it carries the required modifier. *)
Record Entry : Type :=
  { entry_name : string; entry_expr : string; entry_required : bool }.

Definition renderEntry (e : Entry) : string :=
  "'" ++ entry_name e ++ "': " ++ entry_expr e
  ++ (if entry_required e then ".required()" else "").

(** The entry of a field whose type has been rendered as [prop]. *)
Definition entryOfField (f : Field) (prop : string) : Entry :=
  {| entry_name := getName (field_name f);
     entry_expr := prop;
     entry_required := negb (field_optional f) |}.

(** The shape compiled from fields whose types have been rendered as [props]. *)
Definition objectShape (fields : list Field) (props : list string) : list Entry :=
  map (fun fp => entryOfField (fst fp) (snd fp)) (combine fields props).

(** The text of a folded enum constant, [undefined] when there is none. *)
Definition memberValue (host : Host) (m : EnumMember) : string :=
  getTextOfConstantValue host (constantValue m).

(** The types named by the heritage clauses of a declaration, in order. *)
Definition inheritedTypes (heritageClauses : option (list (HeritageClause Node))) : list Node :=
  match heritageClauses with
  | None => []
  | Some clauses => List.concat (map types clauses)
  end.

(** ** Nodes that hold no declaration

    Members, types and inherited expressions of a parsed program hold no
    declaration, import or source file below them. *)

Fixpoint noDeclarations (node : Node) : bool :=
  match node with
  | ParameterDeclaration _ _ type | PropertySignature _ _ type =>
      match type with Some t => noDeclarations t | None => true end
  | TypeReference _ _ typeArguments =>
      match typeArguments with Some (first :: _) => noDeclarations first | _ => true end
  | TypeLiteral members => forallb noDeclarations members
  | TupleType elementTypes => forallb noDeclarations elementTypes
  | UnionType types => forallb noDeclarations types
  | ArrayType elementType => noDeclarations elementType
  | ExpressionWithTypeArguments expression => noDeclarations expression
  | ParenthesizedType type => noDeclarations type
  | EnumDeclaration _ _ _ | InterfaceDeclaration _ _ _ _ | TypeAliasDeclaration _ _ _
  | ImportDeclaration _ _ _ | SourceFile _ _ => false
  | _ => true
  end.

(** Compiling [node] leaves [exportedNames] as it found them. *)
Definition keepsNames (host : Host) (options : ICompilerOptions) (topNode : string)
    (node : Node) : Prop :=
  forall p names r names',
    compileNode host options topNode p node names = Return (r, names') -> names' = names.

(** ** Example inputs *)

Module Examples.

Definition ident (text : string) : Name :=
  {| name_text := text; name_symbol := Some text |}.

Definition schemaTag : list string := ["@schema"].

(** [/** @schema */ interface Point { x: number; y: number; label?: string }] *)
Definition pointFields : list Field :=
  [ {| field_name := ident "x"; field_optional := false; field_type := Some NumberKeyword |};
    {| field_name := ident "y"; field_optional := false; field_type := Some NumberKeyword |};
    {| field_name := ident "label"; field_optional := true; field_type := Some StringKeyword |} ].

Definition point : Node :=
  InterfaceDeclaration schemaTag (ident "Point") (map fieldNode pointFields) None.

(** [extends A, B] *)
Definition extendsAB : option (list (HeritageClause Node)) :=
  Some [ {| types := [ ExpressionWithTypeArguments (Identifier "A");
                       ExpressionWithTypeArguments (Identifier "B") ] |} ].

(** [/** @schema */ interface Point3 extends A, B { z: number }] *)
Definition point3Members : list Node :=
  [ PropertySignature (ident "z") false (Some NumberKeyword) ].

Definition point3 : Node :=
  InterfaceDeclaration schemaTag (ident "Point3") point3Members extendsAB.

(** [extends Array<string>] *)
Definition extendsArray : option (list (HeritageClause Node)) :=
  Some [ {| types := [ ExpressionWithTypeArguments (Identifier "Array") ] |} ].

(** [/** @schema */ interface Names extends Array<string> { total: number }] *)
Definition names : Node :=
  InterfaceDeclaration schemaTag (ident "Names")
    [ PropertySignature (ident "total") false (Some NumberKeyword) ] extendsArray.

(** [/** @schema */ interface StringList extends Array<string> { [index: number]: string }] *)
Definition stringList : Node :=
  InterfaceDeclaration schemaTag (ident "StringList")
    [ IndexSignature "[index: number]: string" ] extendsArray.

(** [extends Array<string>, ns.Base]: the second expression is a property
    access, a kind the compiler does not support. *)
Definition extendsArrayAndQualified : option (list (HeritageClause Node)) :=
  Some [ {| types := [ ExpressionWithTypeArguments (Identifier "Array");
                       ExpressionWithTypeArguments
                         (OtherKind "PropertyAccessExpression" "ns.Base") ] |} ].

(** [/** @schema */ interface Mixed extends Array<string>, ns.Base { total: number }] *)
Definition mixed : Node :=
  InterfaceDeclaration schemaTag (ident "Mixed")
    [ PropertySignature (ident "total") false (Some NumberKeyword) ] extendsArrayAndQualified.

(** [/** @schema */ enum Size { Small = 1, Large = "L".length }]: the second
    member is computed, the checker has no constant for it. *)
Definition sizeMembers : list EnumMember :=
  [ {| member_name := ident "Small"; constantValue := Some (NumberValue 1) |};
    {| member_name := ident "Large"; constantValue := None |} ].

Definition size : Node := EnumDeclaration schemaTag (ident "Size") sizeMembers.

(** [./foo.ts], holding [/** @schema */ interface Foo { id: string }] *)
Definition fooFile : Node :=
  SourceFile "/project/foo.ts"
    [ InterfaceDeclaration schemaTag (ident "Foo")
        [ PropertySignature (ident "id") false (Some StringKeyword) ] None ].

Definition fooAsBar : ImportClause :=
  {| namedBindings := Some (NamedImports [ {| propertyName := Some "Foo"; name := "Bar" |} ]) |}.

(** [import { Foo as Bar } from './foo'], with the module resolved by the checker. *)
Definition importFoo : Node :=
  ImportDeclaration (Some fooAsBar) "'./foo'" (Some (Some [fooFile])).

(** [export { Foo as Bar } from './foo'] *)
Definition exportFoo : Node :=
  ExportDeclaration (Some [ {| propertyName := Some "Foo"; name := "Bar" |} ]) (Some "'./foo'").

Definition inlining : ICompilerOptions :=
  {| ignoreGenerics := Some false;
     ignoreIndexSignature := Some false;
     inlineImports := Some true;
     outDir := None;
     suffix := defaultSuffix |}.

Definition root : string := "/project/root.ts".

End Examples.


(** ** Vocabulary of the further properties *)

(** [names'] is [names] with more names pushed behind. *)
Definition extendsNames (names names' : list string) : Prop :=
  exists added, names' = (names ++ added)%list.

(** Compiling [node] only ever pushes on [exportedNames]. *)
Definition onlyPushes (host : Host) (options : ICompilerOptions) (topNode : string)
    (node : Node) : Prop :=
  forall p names r names',
    compileNode host options topNode p node names = Return (r, names') ->
    extendsNames names names'.

(** A statement that is dropped without a trace: a declaration without the
    [@schema] tag, a statement of an unsupported kind, an export without a
    clause of named elements or without a module specifier. *)
Definition silentStatement (node : Node) : bool :=
  match node with
  | EnumDeclaration jsDocTags _ _ => negb (hasTag jsDocTags "schema")
  | InterfaceDeclaration jsDocTags _ _ _ => negb (hasTag jsDocTags "schema")
  | TypeAliasDeclaration jsDocTags _ _ => negb (hasTag jsDocTags "schema")
  | ExportDeclaration None _ => true
  | ExportDeclaration _ None => true
  | OtherKind _ _ => true
  | _ => false
  end.

(** The preamble of the root file. *)
Definition preamble : string :=
  "import * as Joi from " ++ JS.dquote ++ "joi" ++ JS.dquote ++ ";" ++ JS.newline
  ++ "// tslint:disable:object-literal-key-quotes" ++ JS.newline ++ JS.newline.

(** The kinds a type annotation can have among those [compileNode] handles. *)
Fixpoint isTypeNode (node : Node) : bool :=
  match node with
  | TypeReference _ _ _ | FunctionType _ _ | TypeLiteral _ | ArrayType _
  | TupleType _ | UnionType _ | LiteralType _
  | AnyKeyword | NumberKeyword | ObjectKeyword | BooleanKeyword | StringKeyword
  | SymbolKeyword | UndefinedKeyword | NullKeyword | NeverKeyword => true
  | ParenthesizedType type => isTypeNode type
  | _ => false
  end.

(** A module specifier as it stands in the source: [spec] between two quotes. *)
Definition quoted (quote : ascii) (spec : string) : string :=
  String quote (spec ++ String quote EmptyString).

(** Two outputs of statement lists put together as one. *)
Definition joinFragments (a b : string) : string :=
  if String.eqb a "" then b
  else if String.eqb b "" then a
  else a ++ (JS.newline ++ JS.newline) ++ b.

Fixpoint countNewlines (s : string) : nat :=
  match s with
  | EmptyString => 0
  | String c rest =>
      (if Ascii.eqb c (ascii_of_nat 10) then 1 else 0) + countNewlines rest
  end.

(** The line an entry makes inside [.keys({ ... })]. *)
Definition entryLine (n : string) : string := "  " ++ indent n ++ "," ++ JS.newline.

(** A declaration of a parsed program: an enumeration, a record type or an
    alias, with no declaration nested in its members, inherited expressions or
    aliased type. *)
Definition plainDeclaration (node : Node) : bool :=
  match node with
  | EnumDeclaration _ _ _ => true
  | InterfaceDeclaration _ _ members heritageClauses =>
      forallb noDeclarations members
      && forallb noDeclarations (inheritedTypes heritageClauses)
  | TypeAliasDeclaration _ _ type => noDeclarations type
  | _ => false
  end.

Definition declarationName (node : Node) : string :=
  match node with
  | EnumDeclaration _ name _ => getName name
  | InterfaceDeclaration _ name _ _ => getName name
  | TypeAliasDeclaration _ name _ => getName name
  | _ => ""
  end.

(** ** Further example inputs *)

Module Samples.

Import Examples.

(** [ignoreIndexSignature] set, everything else as by default. *)
Definition ignoringIndexSignatures : ICompilerOptions :=
  {| ignoreGenerics := Some false;
     ignoreIndexSignature := Some true;
     inlineImports := Some false;
     outDir := None;
     suffix := defaultSuffix |}.

Definition indexSignature : Node := IndexSignature "[key: string]: number".

Definition total : Node := PropertySignature (ident "total") false (Some NumberKeyword).

Definition label : Node := PropertySignature (ident "label") true (Some StringKeyword).

(** [interface Hidden { (x: number): string }]: no tag, and a call signature,
    which the compiler does not support. *)
Definition hidden : Node :=
  InterfaceDeclaration [] (ident "Hidden") [ OtherKind "CallSignature" "(x: number): string" ]
    None.

(** [export * from './other'] *)
Definition exportStar : Node := ExportDeclaration None (Some "'./other'").

Definition silentStatements : list Node :=
  [ hidden; OtherKind "VariableStatement" "const x = 1;"; exportStar ].

(** [/** @schema */ type Id = "A" | "B"] *)
Definition idType : Node :=
  UnionType [ LiteralType (JS.dquote ++ "A" ++ JS.dquote);
              LiteralType (JS.dquote ++ "B" ++ JS.dquote) ].

Definition idAlias : Node := TypeAliasDeclaration schemaTag (ident "Id") idType.

Definition idText : string :=
  "Joi.alternatives(Joi.valid(" ++ JS.dquote ++ "A" ++ JS.dquote ++ "), Joi.valid("
  ++ JS.dquote ++ "B" ++ JS.dquote ++ "))".

(** [import * as foo from './foo'], resolved to [./foo.ts]. *)
Definition namespaceFoo : ImportClause :=
  {| namedBindings := Some (NamespaceImport "* as foo") |}.

(** [extends A] and [extends B] as two clauses. *)
Definition extendsAThenB : option (list (HeritageClause Node)) :=
  Some [ {| types := [ ExpressionWithTypeArguments (Identifier "A") ] |};
         {| types := [ ExpressionWithTypeArguments (Identifier "B") ] |} ].

(** What [Point] compiles to. *)
Definition pointText : string :=
  "export const Point = Joi.object().keys({" ++ JS.newline
  ++ "  'x': Joi.number().required()," ++ JS.newline
  ++ "  'y': Joi.number().required()," ++ JS.newline
  ++ "  'label': Joi.string()," ++ JS.newline
  ++ "}).strict();".

End Samples.

(** * Properties *)

(** ** Strings *)

Lemma append_nil_r (s : string) : s ++ "" = s.
Proof. induction s as [|c s IH]; simpl; [reflexivity | now rewrite IH]. Qed.

Lemma append_assoc (a b c : string) : (a ++ b) ++ c = a ++ (b ++ c).
Proof. induction a as [|x a IH]; simpl; [reflexivity | now rewrite IH]. Qed.

Lemma replace_newlines_app (r a b : string) :
  JS.replace_newlines r (a ++ b) = JS.replace_newlines r a ++ JS.replace_newlines r b.
Proof.
  induction a as [|c a IH]; simpl; [reflexivity|].
  destruct (Ascii.eqb c (ascii_of_nat 10)); rewrite IH.
  - now rewrite append_assoc.
  - reflexivity.
Qed.

(** [indent] works character by character, so it distributes over [++]. *)
Lemma indent_app (a b : string) : indent (a ++ b) = indent a ++ indent b.
Proof. apply replace_newlines_app. Qed.

(** ** The state-and-exception discipline *)

Lemma bind_Return {A B} (m : M A) (k : A -> M B) names a names' :
  m names = Return (a, names') -> bind m k names = k a names'.
Proof. intros H. unfold bind. now rewrite H. Qed.

Lemma mapM_nil {A B} (f : A -> M B) names : mapM f [] names = Return ([], names).
Proof. reflexivity. Qed.

Lemma mapM_cons {A B} (f : A -> M B) x xs names :
  mapM f (x :: xs) names = (y <- f x ;; ys <- mapM f xs ;; ret (y :: ys)) names.
Proof. reflexivity. Qed.

Lemma mapM_cons_Return {A B} (f : A -> M B) x xs names y names1 ys names2 :
  f x names = Return (y, names1) ->
  mapM f xs names1 = Return (ys, names2) ->
  mapM f (x :: xs) names = Return (y :: ys, names2).
Proof.
  intros Hx Hxs. rewrite mapM_cons.
  rewrite (bind_Return _ _ _ _ _ Hx), (bind_Return _ _ _ _ _ Hxs). reflexivity.
Qed.

(** A successful [map] returns one result per element. *)
Lemma mapM_length {A B} (f : A -> M B) xs :
  forall names ys names', mapM f xs names = Return (ys, names') -> length ys = length xs.
Proof.
  induction xs as [|x xs IH]; intros names ys names' H.
  - rewrite mapM_nil in H. now injection H as <- <-.
  - rewrite mapM_cons in H. unfold bind in H.
    destruct (f x names) as [[y n1]|e]; [|discriminate].
    destruct (mapM f xs n1) as [[ys' n2]|e] eqn:Hrest; [|discriminate].
    injection H as <- <-. simpl. f_equal. eapply IH; eassumption.
Qed.

Lemma mapM_app {A B} (f : A -> M B) xs zs :
  forall names,
    mapM f (xs ++ zs)%list names
    = match mapM f xs names with
      | Return (ys, names1) =>
          match mapM f zs names1 with
          | Return (ws, names2) => Return ((ys ++ ws)%list, names2)
          | Throw e => Throw e
          end
      | Throw e => Throw e
      end.
Proof.
  induction xs as [|x xs IH]; intros names.
  - simpl app. rewrite mapM_nil. destruct (mapM f zs names) as [[ws n]|e]; reflexivity.
  - simpl app. rewrite !mapM_cons. unfold bind at 1 3.
    destruct (f x names) as [[y n1]|e]; [|reflexivity].
    unfold bind, ret. rewrite IH.
    destruct (mapM f xs n1) as [[ys n2]|e]; [|reflexivity].
    destruct (mapM f zs n2) as [[ws n3]|e] eqn:Hzs; rewrite ?Hzs; reflexivity.
Qed.

(** The first element that throws decides the outcome of [map]: what follows
    it is not run. *)
Lemma mapM_throws_at {A B} (f : A -> M B) before x after names compiled names1 e :
  mapM f before names = Return (compiled, names1) ->
  f x names1 = Throw e ->
  mapM f (before ++ x :: after)%list names = Throw e.
Proof.
  intros Hbefore Hx. rewrite mapM_app, Hbefore, mapM_cons. unfold bind. now rewrite Hx.
Qed.

(** ** The translation rules *)

Section Rules.

Variable host : Host.
Variable options : ICompilerOptions.
Variable topNode : string.

Local Notation "'compile'" := (compileNode host options topNode).

(** *** Heritage clauses *)

(** The nested loop over the clauses visits the inherited types in order. *)
Lemma compileHeritageClauses_inherited heritageClauses names :
  compileHeritageClauses compile heritageClauses names
  = mapM (compile false) (inheritedTypes heritageClauses) names.
Proof.
  destruct heritageClauses as [clauses|]; [|reflexivity].
  unfold compileHeritageClauses, inheritedTypes, bind.
  enough (H : forall names,
             match mapM (fun h => mapM (compile false) (types h)) clauses names with
             | Return (perClause, names') => Return (List.concat perClause, names')
             | Throw e => Throw e
             end = mapM (compile false) (List.concat (map types clauses)) names).
  { rewrite <- H.
    destruct (mapM (fun h => mapM (compile false) (types h)) clauses names) as [[? ?]|?];
      reflexivity. }
  clear names. induction clauses as [|h clauses IH]; intros names; [reflexivity|].
  simpl map. simpl List.concat. rewrite mapM_app, mapM_cons. unfold bind.
  destruct (mapM (compile false) (types h) names) as [[here n1]|e]; [|reflexivity].
  rewrite <- IH.
  destruct (mapM (fun h0 => mapM (compile false) (types h0)) clauses n1) as [[there n2]|e];
    reflexivity.
Qed.

(** *** Record-type declarations *)

(** What an eligible declaration compiles to, once its members and its
    inherited expressions have been compiled. *)
Lemma interface_tagged p jsDocTags name members heritageClauses
      names compiled names1 extend names2 :
  hasTag jsDocTags "schema" = true ->
  mapM (compile false) members names = Return (compiled, names1) ->
  compileHeritageClauses compile heritageClauses names1 = Return (extend, names2) ->
  compile p (InterfaceDeclaration jsDocTags name members heritageClauses) names
  = if JS.includes "Array" extend then Return ("", names2)
    else Return ("export const " ++ getName name ++ " = Joi.object()"
                 ++ JS.join "" (map (fun e => ".concat(" ++ e ++ ")") extend)
                 ++ ".keys({" ++ JS.newline
                 ++ JS.join "" (map (fun n => "  " ++ indent n ++ "," ++ JS.newline)
                                    (filter (fun n => negb (String.eqb n ignoreNode)) compiled))
                 ++ "}).strict();",
                 (names2 ++ [getName name])%list).
Proof.
  intros Htag Hmembers Hextend.
  change (compile p (InterfaceDeclaration jsDocTags name members heritageClauses))
    with (_compileInterfaceDeclaration compile jsDocTags name members heritageClauses).
  unfold _compileInterfaceDeclaration. rewrite Htag. cbn [negb].
  rewrite (bind_Return _ _ _ _ _ Hmembers). cbv beta.
  rewrite (bind_Return _ _ _ _ _ Hextend). cbv beta.
  destruct (JS.includes "Array" extend); reflexivity.
Qed.

(** An error of the members' [map] is the outcome of an eligible declaration. *)
Lemma interface_members_throw p jsDocTags name members heritageClauses names e :
  hasTag jsDocTags "schema" = true ->
  mapM (compile false) members names = Throw e ->
  compile p (InterfaceDeclaration jsDocTags name members heritageClauses) names = Throw e.
Proof.
  intros Htag Hmembers.
  change (compile p (InterfaceDeclaration jsDocTags name members heritageClauses))
    with (_compileInterfaceDeclaration compile jsDocTags name members heritageClauses).
  unfold _compileInterfaceDeclaration. rewrite Htag. cbn [negb].
  unfold bind at 1. now rewrite Hmembers.
Qed.

(** So is an error of the loop over the heritage clauses, which runs once the
    members have compiled and before [extend] is searched for [Array]. *)
Lemma interface_heritage_throws
      p jsDocTags name members heritageClauses names compiled names1 e :
  hasTag jsDocTags "schema" = true ->
  mapM (compile false) members names = Return (compiled, names1) ->
  compileHeritageClauses compile heritageClauses names1 = Throw e ->
  compile p (InterfaceDeclaration jsDocTags name members heritageClauses) names = Throw e.
Proof.
  intros Htag Hmembers Hextend.
  change (compile p (InterfaceDeclaration jsDocTags name members heritageClauses))
    with (_compileInterfaceDeclaration compile jsDocTags name members heritageClauses).
  unfold _compileInterfaceDeclaration. rewrite Htag. cbn [negb].
  rewrite (bind_Return _ _ _ _ _ Hmembers). cbv beta.
  unfold bind at 1. now rewrite Hextend.
Qed.

Lemma renderEntry_of_field f prop :
  renderEntry (entryOfField f prop)
  = "'" ++ getName (field_name f) ++ "': "
    ++ (if field_optional f then prop else prop ++ ".required()").
Proof.
  unfold renderEntry, entryOfField. simpl.
  destruct (field_optional f); simpl; [now rewrite append_nil_r | reflexivity].
Qed.

(** In the text of an entry the required modifier, when there is one, comes
    last: indentation does not touch it. *)
Lemma indent_renderEntry e :
  indent (renderEntry e)
  = indent ("'" ++ entry_name e ++ "': " ++ entry_expr e)
    ++ (if entry_required e then ".required()" else "").
Proof.
  unfold renderEntry.
  replace ("'" ++ entry_name e ++ "': " ++ entry_expr e
           ++ (if entry_required e then ".required()" else ""))
    with (("'" ++ entry_name e ++ "': " ++ entry_expr e)
          ++ (if entry_required e then ".required()" else ""))
    by (now rewrite !append_assoc).
  rewrite indent_app. destruct (entry_required e); reflexivity.
Qed.

(** Property signatures compile to the entries of the shape, one each. *)
Lemma fields_compile fields :
  forall names props names1,
    mapM (compileOptType compile) (map field_type fields) names = Return (props, names1) ->
    mapM (compile false) (map fieldNode fields) names
    = Return (map renderEntry (objectShape fields props), names1).
Proof.
  induction fields as [|f fields IH]; intros names props names1 H.
  - simpl map in H. rewrite mapM_nil in H. injection H as <- <-. reflexivity.
  - simpl map in H. rewrite mapM_cons in H. unfold bind in H.
    destruct (compileOptType compile (field_type f) names) as [[prop n1]|e] eqn:Hprop;
      [|discriminate].
    destruct (mapM (compileOptType compile) (map field_type fields) n1)
      as [[props' n2]|e] eqn:Hrest; [|discriminate].
    injection H as <- <-.
    simpl map. eapply mapM_cons_Return; [|apply IH; exact Hrest].
    change (compile false (fieldNode f))
      with (_compilePropertySignature compile (field_name f) (field_optional f) (field_type f)).
    unfold _compilePropertySignature.
    rewrite (bind_Return _ _ _ _ _ Hprop). unfold ret.
    simpl fst. simpl snd. now rewrite renderEntry_of_field.
Qed.

Lemma entries_not_ignored shape :
  filter (fun n => negb (String.eqb n ignoreNode)) (map renderEntry shape)
  = map renderEntry shape.
Proof.
  induction shape as [|e shape IH]; [reflexivity|].
  simpl. now rewrite IH.
Qed.

End Rules.

(** *** Counting the entries of a shape *)

Lemma fields_split fields :
  length fields = length (requiredFields fields) + length (optionalFields fields).
Proof.
  unfold requiredFields, optionalFields.
  induction fields as [|f fields IH]; [reflexivity|].
  simpl. destruct (field_optional f); simpl; lia.
Qed.

Lemma objectShape_length fields :
  forall props, length props = length fields -> length (objectShape fields props) = length fields.
Proof.
  intros props H. unfold objectShape. rewrite length_map, length_combine. lia.
Qed.

Lemma objectShape_required fields :
  forall props,
    length props = length fields ->
    length (filter entry_required (objectShape fields props)) = length (requiredFields fields).
Proof.
  unfold objectShape, requiredFields.
  induction fields as [|f fields IH]; intros [|prop props] H; try discriminate; [reflexivity|].
  simpl in *. injection H as H. specialize (IH props H).
  destruct (field_optional f); simpl; lia.
Qed.

Lemma objectShape_names fields :
  forall props,
    length props = length fields ->
    map entry_name (objectShape fields props) = map (fun f => getName (field_name f)) fields.
Proof.
  unfold objectShape.
  induction fields as [|f fields IH]; intros [|prop props] H; try discriminate; [reflexivity|].
  simpl in *. injection H as H. now rewrite (IH props H).
Qed.

Lemma objectShape_flags fields :
  forall props,
    length props = length fields ->
    Forall2 (fun f e => entry_required e = true <-> field_optional f = false)
            fields (objectShape fields props).
Proof.
  unfold objectShape.
  induction fields as [|f fields IH]; intros [|prop props] H; try discriminate.
  - constructor.
  - simpl in *. injection H as H. constructor; [|exact (IH props H)].
    simpl. destruct (field_optional f); simpl; split; congruence.
Qed.

(** ** Exported names *)

Section ExportedNames.

Variable host : Host.
Variable options : ICompilerOptions.
Variable topNode : string.

Local Notation "'compile'" := (compileNode host options topNode).

Lemma mapM_keeps_names (xs : list Node) :
  Forall (keepsNames host options topNode) xs ->
  forall p names rs names', mapM (compile p) xs names = Return (rs, names') -> names' = names.
Proof.
  induction 1 as [|x xs Hx _ IH]; intros p names rs names' H.
  - rewrite mapM_nil in H. now injection H as _ <-.
  - rewrite mapM_cons in H. unfold bind in H.
    destruct (compile p x names) as [[y n1]|e] eqn:Ex; [|discriminate].
    destruct (mapM (compile p) xs n1) as [[ys n2]|e] eqn:Exs; [|discriminate].
    injection H as _ <-.
    rewrite (IH _ _ _ _ Exs). exact (Hx _ _ _ _ Ex).
Qed.

(** The elements of a list all keep the names when they are free of
    declarations; [IH] is the statement for the nodes below the current one. *)
Ltac elements_keep_names IH :=
  match goal with
  | Hnode : forallb noDeclarations ?xs = true, H : _ = Return _ |- _ =>
      assert (Hall : Forall (keepsNames host options topNode) xs)
        by (clear H; induction xs as [|m xs IHxs];
            [ constructor
            | cbn [forallb] in Hnode; apply andb_prop in Hnode as [Hm Hrest];
              constructor; [exact (IH m Hm) | exact (IHxs Hrest)] ])
  end.

Lemma noDeclarations_keeps_names :
  forall node, noDeclarations node = true -> keepsNames host options topNode node.
Proof.
  fix IH 1. intros node Hnode.
  destruct node; try discriminate Hnode; intros p names r names' H;
    cbn [noDeclarations] in Hnode; cbn [compileNode] in H;
    try elements_keep_names IH.
  - (* Identifier *) now injection H as _ <-.
  - (* ParameterDeclaration *)
    unfold _compileParameterDeclaration, compileOptType, bind in H.
    destruct type as [t|].
    + destruct (compile false t names) as [[y n1]|e] eqn:Et; [|discriminate].
      injection H as _ <-. exact (IH t Hnode _ _ _ _ Et).
    + now injection H as _ <-.
  - (* PropertySignature *)
    unfold _compilePropertySignature, compileOptType, bind in H.
    destruct type as [t|].
    + destruct (compile false t names) as [[y n1]|e] eqn:Et; [|discriminate].
      injection H as _ <-. exact (IH t Hnode _ _ _ _ Et).
    + now injection H as _ <-.
  - (* MethodSignature *) now injection H as _ <-.
  - (* TypeReference *)
    unfold _compileTypeReferenceNode in H.
    destruct typeArguments as [[|first rest]|].
    + destruct (String.eqb typeName "Array"); [discriminate|].
      destruct (JS.truthy_bool (ignoreGenerics options)); [|discriminate].
      now injection H as _ <-.
    + destruct (String.eqb typeName "Array").
      * unfold bind in H.
        destruct (compile false first names) as [[y n1]|e] eqn:Et; [|discriminate].
        injection H as _ <-. exact (IH first Hnode _ _ _ _ Et).
      * destruct (JS.truthy_bool (ignoreGenerics options)); [|discriminate].
        now injection H as _ <-.
    + destruct (String.eqb typeName "Date"); [now injection H as _ <-|].
      destruct (String.eqb typeName "Buffer"); now injection H as _ <-.
  - (* FunctionType *) now injection H as _ <-.
  - (* TypeLiteral *)
    unfold _compileTypeLiteralNode, bind in H.
    destruct (mapM (compile false) members names) as [[ys n1]|e] eqn:Ems; [|discriminate].
    injection H as _ <-. exact (mapM_keeps_names _ Hall _ _ _ _ Ems).
  - (* ArrayType *)
    unfold _compileArrayTypeNode, bind in H.
    destruct (compile false node names) as [[y n1]|e] eqn:Et; [|discriminate].
    injection H as _ <-. exact (IH node Hnode _ _ _ _ Et).
  - (* TupleType *)
    unfold _compileTupleTypeNode, bind in H.
    destruct (mapM (compile false) elementTypes names) as [[ys n1]|e] eqn:Ems; [|discriminate].
    injection H as _ <-. exact (mapM_keeps_names _ Hall _ _ _ _ Ems).
  - (* UnionType *)
    unfold _compileUnionTypeNode, bind in H.
    match type of H with
    | context [mapM _ ?xs names] =>
        destruct (mapM (compile false) xs names) as [[ys n1]|e] eqn:Ems; [|discriminate]
    end.
    injection H as _ <-. exact (mapM_keeps_names _ Hall _ _ _ _ Ems).
  - (* LiteralType *) now injection H as _ <-.
  - (* ExpressionWithTypeArguments *) exact (IH node Hnode _ _ _ _ H).
  - (* ParenthesizedType *) exact (IH node Hnode _ _ _ _ H).
  - (* ExportDeclaration *)
    unfold _compileExportDeclaration in H.
    destruct exportClause as [elements|]; [|now injection H as _ <-].
    destruct moduleSpecifier as [raw|]; [|now injection H as _ <-].
    destruct (JS.startsWith (unquote raw) "."); now injection H as _ <-.
  - now injection H as _ <-.
  - now injection H as _ <-.
  - now injection H as _ <-.
  - now injection H as _ <-.
  - now injection H as _ <-.
  - now injection H as _ <-.
  - now injection H as _ <-.
  - now injection H as _ <-.
  - now injection H as _ <-.
  - (* IndexSignature *)
    unfold _compileIndexSignatureDeclaration in H.
    destruct (JS.truthy_bool (ignoreIndexSignature options)); [|discriminate].
    now injection H as _ <-.
  - (* OtherKind *)
    destruct p; [|discriminate]. now injection H as _ <-.
Qed.

(** Only declarations push exported names. *)
Lemma mapM_noDeclarations xs p names rs names' :
  forallb noDeclarations xs = true ->
  mapM (compile p) xs names = Return (rs, names') ->
  names' = names.
Proof.
  intros Hxs. apply mapM_keeps_names.
  apply Forall_forall. intros x Hin. apply noDeclarations_keeps_names.
  rewrite forallb_forall in Hxs. now apply Hxs.
Qed.

End ExportedNames.

(** The two [.concat(...)] calls, joined without a separator. *)
Lemma two_concats (a b rest : string) :
  JS.join "" (map (fun e => ".concat(" ++ e ++ ")") [a; b]) ++ rest
  = ".concat(" ++ a ++ ")" ++ ".concat(" ++ b ++ ")" ++ rest.
Proof.
  unfold JS.join. cbn [map String.concat].
  change ("" ++ (".concat(" ++ b ++ ")")) with (".concat(" ++ b ++ ")").
  rewrite !append_assoc. reflexivity.
Qed.

(** ** Declarations *)

Section Declarations.

Variable host : Host.
Variable options : ICompilerOptions.
Variable topNode : string.

Local Notation "'compile'" := (compileNode host options topNode).

(** C1. An eligible record-type declaration whose members are [N] required and
    [M] optional fields compiles to an object shape with exactly [N + M]
    entries, in declaration order, of which exactly the [N] entries of fields
    without a question token carry [.required()].  Its name is pushed on the
    exported names, which fields and inherited expressions free of
    declarations leave as they were. *)
Theorem record_shape_entries
    p jsDocTags name fields heritageClauses names props names1 extend names2 :
  hasTag jsDocTags "schema" = true ->
  mapM (compileOptType compile) (map field_type fields) names = Return (props, names1) ->
  compileHeritageClauses compile heritageClauses names1 = Return (extend, names2) ->
  JS.includes "Array" extend = false ->
  let shape := objectShape fields props in
  compile p (InterfaceDeclaration jsDocTags name (map fieldNode fields) heritageClauses) names
  = Return ("export const " ++ getName name ++ " = Joi.object()"
            ++ JS.join "" (map (fun e => ".concat(" ++ e ++ ")") extend)
            ++ ".keys({" ++ JS.newline
            ++ JS.join "" (map (fun e => "  " ++ indent (renderEntry e) ++ "," ++ JS.newline)
                               shape)
            ++ "}).strict();",
            (names2 ++ [getName name])%list)
  /\ length shape = length (requiredFields fields) + length (optionalFields fields)
  /\ length (filter entry_required shape) = length (requiredFields fields)
  /\ map entry_name shape = map (fun f => getName (field_name f)) fields
  /\ Forall2 (fun f e => entry_required e = true <-> field_optional f = false) fields shape
  /\ (forallb noDeclarations (map fieldNode fields) = true ->
      forallb noDeclarations (inheritedTypes heritageClauses) = true ->
      names2 = names).
Proof.
  intros Htag Hprops Hextend Harray shape.
  assert (Hlen : length props = length fields).
  { rewrite (mapM_length _ _ _ _ _ Hprops). apply length_map. }
  split; [|split; [|split; [|split; [|split]]]].
  - rewrite (interface_tagged _ _ _ p _ name _ _ _ _ _ _ _
               Htag (fields_compile _ _ _ _ _ _ _ Hprops) Hextend).
    rewrite Harray, entries_not_ignored, map_map. reflexivity.
  - unfold shape. rewrite (objectShape_length _ _ Hlen). apply fields_split.
  - apply objectShape_required, Hlen.
  - apply objectShape_names, Hlen.
  - apply objectShape_flags, Hlen.
  - intros Hfields Hinherited.
    rewrite compileHeritageClauses_inherited in Hextend.
    rewrite (mapM_noDeclarations _ _ _ _ _ _ _ _ Hinherited Hextend).
    exact (mapM_noDeclarations _ _ _ _ _ _ _ _ Hfields (fields_compile _ _ _ _ _ _ _ Hprops)).
Qed.

(** C6. An eligible record-type declaration inheriting from [A] and [B], neither
    of which compiles to [Array], compiles to [Joi.object()] followed by
    [.concat(a)] then [.concat(b)], in clause order, then [.keys({...})] with
    the member entries, then [.strict()].  Its name is pushed on the exported
    names, which members and inherited expressions free of declarations leave
    as they were. *)
Theorem inheritance_concat_in_clause_order
    p jsDocTags name members heritageClauses A B
    names compiled names1 a names2 b names3 :
  hasTag jsDocTags "schema" = true ->
  inheritedTypes heritageClauses = [A; B] ->
  mapM (compile false) members names = Return (compiled, names1) ->
  compile false A names1 = Return (a, names2) ->
  compile false B names2 = Return (b, names3) ->
  a <> "Array" ->
  b <> "Array" ->
  compile p (InterfaceDeclaration jsDocTags name members heritageClauses) names
  = Return ("export const " ++ getName name ++ " = Joi.object()"
            ++ ".concat(" ++ a ++ ")" ++ ".concat(" ++ b ++ ")"
            ++ ".keys({" ++ JS.newline
            ++ JS.join "" (map (fun n => "  " ++ indent n ++ "," ++ JS.newline)
                               (filter (fun n => negb (String.eqb n "")) compiled))
            ++ "}).strict();",
            (names3 ++ [getName name])%list)
  /\ (forallb noDeclarations members = true ->
      noDeclarations A = true -> noDeclarations B = true -> names3 = names).
Proof.
  intros Htag Hinherited Hmembers HA HB Ha Hb.
  split.
  2: { intros Hms HnA HnB.
       rewrite (noDeclarations_keeps_names _ _ _ _ HnB _ _ _ _ HB).
       rewrite (noDeclarations_keeps_names _ _ _ _ HnA _ _ _ _ HA).
       exact (mapM_noDeclarations _ _ _ _ _ _ _ _ Hms Hmembers). }
  assert (Hextend : compileHeritageClauses compile heritageClauses names1
                    = Return ([a; b], names3)).
  { rewrite compileHeritageClauses_inherited, Hinherited.
    eapply mapM_cons_Return; [exact HA|].
    eapply mapM_cons_Return; [exact HB|]. apply mapM_nil. }
  rewrite (interface_tagged _ _ _ p _ name _ _ _ _ _ _ _ Htag Hmembers Hextend).
  unfold JS.includes. cbn [existsb].
  apply String.eqb_neq in Ha, Hb. rewrite String.eqb_sym in Ha, Hb.
  rewrite Ha, Hb. cbn [orb]. rewrite two_concats. reflexivity.
Qed.

(** C7, amended. For an eligible record-type declaration: when its members and
    its inherited expressions compile without error and one of the inherited
    expressions compiles to [Array], the declaration compiles to the empty
    fragment and its name is not pushed (the exported names are those the
    members and inherited expressions left, which for members and expressions
    free of declarations are the ones it started with).  An error thrown while
    a member or an inherited expression is compiled is the outcome of the
    declaration all the same: the members and the inherited expressions are
    compiled before [extend] is searched for [Array], so the error of the first
    member that throws, or, when all members compile, of the first inherited
    expression that throws, propagates, whatever was compiled before it and
    whatever follows it. *)
Theorem array_heritage_dropped p jsDocTags name members heritageClauses names :
  hasTag jsDocTags "schema" = true ->
  (forall compiled names1 extend names2,
      mapM (compile false) members names = Return (compiled, names1) ->
      compileHeritageClauses compile heritageClauses names1 = Return (extend, names2) ->
      In "Array" extend ->
      compile p (InterfaceDeclaration jsDocTags name members heritageClauses) names
      = Return ("", names2)
      /\ (forallb noDeclarations members = true ->
          forallb noDeclarations (inheritedTypes heritageClauses) = true ->
          names2 = names))
  /\ (forall before member after compiledBefore names1 e,
        members = (before ++ member :: after)%list ->
        mapM (compile false) before names = Return (compiledBefore, names1) ->
        compile false member names1 = Throw e ->
        compile p (InterfaceDeclaration jsDocTags name members heritageClauses) names
        = Throw e)
  /\ (forall compiled names1 before inherited after compiledBefore names2 e,
        mapM (compile false) members names = Return (compiled, names1) ->
        inheritedTypes heritageClauses = (before ++ inherited :: after)%list ->
        mapM (compile false) before names1 = Return (compiledBefore, names2) ->
        compile false inherited names2 = Throw e ->
        compile p (InterfaceDeclaration jsDocTags name members heritageClauses) names
        = Throw e)
  /\ (forall e,
        mapM (compile false) members names = Throw e ->
        compile p (InterfaceDeclaration jsDocTags name members heritageClauses) names
        = Throw e)
  /\ (forall compiled names1 e,
        mapM (compile false) members names = Return (compiled, names1) ->
        compileHeritageClauses compile heritageClauses names1 = Throw e ->
        compile p (InterfaceDeclaration jsDocTags name members heritageClauses) names
        = Throw e).
Proof.
  intros Htag. split; [|split; [|split; [|split]]].
  - intros compiled names1 extend names2 Hmembers Hextend Harray. split.
    + rewrite (interface_tagged _ _ _ p _ name _ _ _ _ _ _ _ Htag Hmembers Hextend).
      assert (H : JS.includes "Array" extend = true).
      { unfold JS.includes. apply existsb_exists. exists "Array".
        split; [exact Harray | apply String.eqb_refl]. }
      now rewrite H.
    + intros Hms Hinherited.
      rewrite compileHeritageClauses_inherited in Hextend.
      rewrite (mapM_noDeclarations _ _ _ _ _ _ _ _ Hinherited Hextend).
      exact (mapM_noDeclarations _ _ _ _ _ _ _ _ Hms Hmembers).
  - intros before member after compiledBefore names1 e -> Hbefore Hthrow.
    apply interface_members_throw; [exact Htag|].
    exact (mapM_throws_at _ _ _ _ _ _ _ _ Hbefore Hthrow).
  - intros compiled names1 before inherited after compiledBefore names2 e
           Hmembers Hsplit Hbefore Hthrow.
    apply (interface_heritage_throws _ _ _ p _ name _ _ _ _ _ _ Htag Hmembers).
    rewrite compileHeritageClauses_inherited, Hsplit.
    exact (mapM_throws_at _ _ _ _ _ _ _ _ Hbefore Hthrow).
  - intros e Hmembers. now apply interface_members_throw.
  - intros compiled names1 e Hmembers Hextend.
    now apply (interface_heritage_throws _ _ _ p _ name _ _ _ _ _ _ Htag Hmembers).
Qed.

(** The enumeration rule, by cases on the tag. *)
Lemma compile_enum p jsDocTags name members names :
  compile p (EnumDeclaration jsDocTags name members) names
  = if hasTag jsDocTags "schema"
    then Return ("export const " ++ getName name ++ " = Joi.valid("
                 ++ JS.join ", " (map (memberValue host) members) ++ ").strict();",
                 (names ++ [getName name])%list)
    else Return ("", names).
Proof.
  change (compile p (EnumDeclaration jsDocTags name members))
    with (_compileEnumDeclaration host jsDocTags name members).
  unfold _compileEnumDeclaration.
  destruct (hasTag jsDocTags "schema"); reflexivity.
Qed.

(** C4. An enumeration declaration without the [@schema] tag compiles to the
    empty fragment and exports nothing.  With the tag it compiles to
    [export const Name = Joi.valid(v1, ..., vk).strict();] over the texts of
    the members' constants in declaration order, and [Name] is appended to the
    exported names. *)
Theorem enum_declaration p jsDocTags name members names :
  (hasTag jsDocTags "schema" = false ->
   compile p (EnumDeclaration jsDocTags name members) names = Return ("", names))
  /\ (hasTag jsDocTags "schema" = true ->
      compile p (EnumDeclaration jsDocTags name members) names
      = Return ("export const " ++ getName name ++ " = Joi.valid("
                ++ JS.join ", " (map (memberValue host) members) ++ ").strict();",
                (names ++ [getName name])%list)
      /\ length (map (memberValue host) members) = length members
      /\ (forall i m, nth_error members i = Some m ->
                      nth_error (map (memberValue host) members) i
                      = Some (memberValue host m))).
Proof.
  split; intros Htag; rewrite compile_enum, Htag; [reflexivity|].
  split; [reflexivity | split; [apply length_map|]].
  intros i m Hm. now rewrite nth_error_map, Hm.
Qed.

Lemma memberValue_unresolved m : constantValue m = None -> memberValue host m = "undefined".
Proof. intros H. unfold memberValue. now rewrite H. Qed.

(** C5, amended. A member of an eligible enumeration whose constant the checker
    cannot resolve does not make the compilation fail: the declaration
    compiles as usual, with the text [undefined] at the place of that member
    in the list of values. *)
Theorem unresolved_enum_member_is_undefined p jsDocTags name members names i m :
  hasTag jsDocTags "schema" = true ->
  nth_error members i = Some m ->
  constantValue m = None ->
  exists values,
    compile p (EnumDeclaration jsDocTags name members) names
    = Return ("export const " ++ getName name ++ " = Joi.valid("
              ++ JS.join ", " values ++ ").strict();",
              (names ++ [getName name])%list)
    /\ length values = length members
    /\ nth_error values i = Some "undefined".
Proof.
  intros Htag Hm Hnone.
  exists (map (memberValue host) members). split; [|split].
  - rewrite compile_enum, Htag. reflexivity.
  - apply length_map.
  - rewrite nth_error_map, Hm. simpl. now rewrite memberValue_unresolved.
Qed.

End Declarations.

(** ** Types and members *)

Section Types.

Variable host : Host.
Variable options : ICompilerOptions.
Variable topNode : string.

Local Notation "'compile'" := (compileNode host options topNode).

(** C2. A type reference with type arguments whose name is [Array] compiles to
    [Joi.array().items(...)] around the translation of its first type
    argument, whatever [ignoreGenerics] says; any other reference with type
    arguments compiles to [Joi.any()] when [ignoreGenerics] is set and throws
    the generics error when it is not. *)
Theorem parametrized_type_reference p text typeName first rest names :
  compile p (TypeReference text typeName (Some (first :: rest))) names
  = if String.eqb typeName "Array" then
      match compile false first names with
      | Return (item, names') => Return ("Joi.array().items(" ++ item ++ ")", names')
      | Throw e => Throw e
      end
    else if JS.truthy_bool (ignoreGenerics options) then Return ("Joi.any()", names)
    else Throw (genericsNotSupported text).
Proof.
  change (compile p (TypeReference text typeName (Some (first :: rest))))
    with (_compileTypeReferenceNode options compile text typeName (Some (first :: rest))).
  unfold _compileTypeReferenceNode.
  destruct (String.eqb typeName "Array").
  - unfold bind. destruct (compile false first names) as [[item names']|e]; reflexivity.
  - destruct (JS.truthy_bool (ignoreGenerics options)); reflexivity.
Qed.

(** C10. A property signature without a type annotation compiles without
    error to an entry whose expression is [Joi.any()], with [.required()]
    exactly when it has no question token. *)
Theorem untyped_field_defaults_to_any p name questionToken names :
  compile p (PropertySignature name questionToken None) names
  = Return ("'" ++ getName name ++ "': " ++ "Joi.any()"
            ++ (if questionToken then "" else ".required()"),
            names).
Proof. destruct questionToken; reflexivity. Qed.

(** A top-level statement of an unsupported kind leaves no trace in the
    output of its source file. *)
Lemma unsupported_statement_skipped kind text before after names :
  _compileSourceFileStatements compile (before ++ OtherKind kind text :: after)%list names
  = _compileSourceFileStatements compile (before ++ after)%list names.
Proof.
  unfold _compileSourceFileStatements, bind. rewrite !mapM_app.
  destruct (mapM (compile true) before names) as [[xs n1]|e]; [|reflexivity].
  rewrite mapM_cons. unfold bind. cbn [compileNode]. unfold ret at 1.
  destruct (mapM (compile true) after n1) as [[ys n2]|e]; [|reflexivity].
  unfold ret. rewrite !filter_app. reflexivity.
Qed.

(** C3. A node of a kind outside the supported grammar compiles to the empty
    fragment when its parent is a source file, so that it vanishes from the
    output of that file, and throws the unsupported-node error when its parent
    is anything else. *)
Theorem unsupported_kind kind text names :
  compile true (OtherKind kind text) names = Return ("", names)
  /\ compile false (OtherKind kind text) names = Throw (notSupported kind text)
  /\ (forall before after,
        _compileSourceFileStatements compile (before ++ OtherKind kind text :: after)%list names
        = _compileSourceFileStatements compile (before ++ after)%list names).
Proof.
  split; [reflexivity | split; [reflexivity |]].
  intros before after. apply unsupported_statement_skipped.
Qed.

(** Where the translated constructs hand their children to [compileNode], the
    parent is not a source file: an unsupported child throws. *)
Lemma nested_unsupported_throws kind text names :
  let bad := OtherKind kind text in
  let thrown := Throw (notSupported kind text) in
  compile true (ArrayType bad) names = thrown
  /\ compile true (ParenthesizedType bad) names = thrown
  /\ compile true (ExpressionWithTypeArguments bad) names = thrown
  /\ compile true (TupleType [bad]) names = thrown
  /\ compile true (UnionType [bad]) names = thrown
  /\ compile true (TypeLiteral [bad]) names = thrown
  /\ (forall name q, compile true (PropertySignature name q (Some bad)) names = thrown)
  /\ (forall name q, compile true (ParameterDeclaration name q (Some bad)) names = thrown)
  /\ (forall text' rest, compile true (TypeReference text' "Array" (Some (bad :: rest))) names
                         = thrown).
Proof. repeat split; reflexivity. Qed.

End Types.

(** ** Import and export statements *)

Section ModuleSpecifiers.

Variable host : Host.
Variable options : ICompilerOptions.
Variable topNode : string.

Local Notation "'compile'" := (compileNode host options topNode).

(** Without [outDir] the new path is the directory, the base name and the
    suffix put side by side: nothing separates the directory from the name. *)
Lemma outPath_without_outDir moduleSpecifier :
  JS.truthy_string (outDir options) = false ->
  outPath host options moduleSpecifier
  = path_dirname host moduleSpecifier
    ++ path_basename host moduleSpecifier (path_extname host moduleSpecifier)
    ++ suffix options.
Proof. intros H. unfold outPath. now rewrite H. Qed.

(** With [outDir] the prefix is [./], which does end in a separator. *)
Lemma outPath_with_outDir moduleSpecifier :
  JS.truthy_string (outDir options) = true ->
  outPath host options moduleSpecifier
  = "./" ++ path_basename host moduleSpecifier (path_extname host moduleSpecifier)
    ++ suffix options.
Proof. intros H. unfold outPath. now rewrite H. Qed.

Lemma join_empty_app xs ys :
  JS.join "" (xs ++ ys)%list = JS.join "" xs ++ JS.join "" ys.
Proof.
  unfold JS.join. induction xs as [|x xs IH]; [reflexivity|].
  destruct xs as [|x' xs].
  - destruct ys as [|y ys]; simpl; [now rewrite append_nil_r | reflexivity].
  - change (String.concat "" ((x :: x' :: xs) ++ ys)%list)
      with (x ++ "" ++ String.concat "" ((x' :: xs) ++ ys)%list).
    change (String.concat "" (x :: x' :: xs))
      with (x ++ "" ++ String.concat "" (x' :: xs)).
    rewrite IH. simpl. now rewrite append_assoc.
Qed.

(** What the loop has pushed is appended to the clause it started from. *)
Lemma pushSpecifiers_clause elements :
  forall first clause,
    JS.join "" (pushSpecifiers first elements clause)
    = JS.join "" clause ++ JS.join "" (pushSpecifiers first elements []).
Proof.
  induction elements as [|element elements IH]; intros first clause.
  - simpl. now rewrite append_nil_r.
  - simpl. rewrite IH, (IH false [_]), join_empty_app, append_assoc. reflexivity.
Qed.

Lemma pushSpecifiers_rest elements :
  forall part,
    part ++ JS.join "" (pushSpecifiers false elements [])
    = JS.join ", " (part :: map specifierPart elements).
Proof.
  induction elements as [|element elements IH]; intros part.
  - simpl. apply append_nil_r.
  - cbn [pushSpecifiers map]. rewrite pushSpecifiers_clause.
    change (JS.join ", " (part :: specifierPart element :: map specifierPart elements))
      with (part ++ ", " ++ JS.join ", " (specifierPart element :: map specifierPart elements)).
    rewrite <- IH.
    change (JS.join "" (List.app [] [", " ++ specifierPart element]))
      with (", " ++ specifierPart element).
    now rewrite append_assoc.
Qed.

(** Every element of a clause keeps its text, [original as local] or [name],
    and the elements are separated by commas. *)
Lemma pushSpecifiers_join elements clause :
  JS.join "" (pushSpecifiers true elements clause)
  = JS.join "" clause ++ JS.join ", " (map specifierPart elements).
Proof.
  rewrite pushSpecifiers_clause. f_equal.
  destruct elements as [|element elements]; [reflexivity|].
  cbn [pushSpecifiers map]. rewrite pushSpecifiers_clause.
  change (JS.join "" (List.app [] [specifierPart element])) with (specifierPart element).
  apply pushSpecifiers_rest.
Qed.

(** The rewritten import of a relative module with named bindings. *)
Lemma rewrittenImport_named elements rawModuleSpecifier :
  JS.startsWith (unquote rawModuleSpecifier) "." = true ->
  rewrittenImport host options
    (Some {| namedBindings := Some (NamedImports elements) |}) rawModuleSpecifier
  = Some ("import { " ++ JS.join ", " (map specifierPart elements)
          ++ " } from '" ++ outPath host options (unquote rawModuleSpecifier) ++ "'").
Proof.
  intros Hrelative. unfold rewrittenImport. rewrite Hrelative. cbn [namedBindings].
  f_equal. rewrite join_empty_app, pushSpecifiers_join.
  change (JS.join "" ["import { "]) with "import { ".
  change (JS.join "" [?x]) with x.
  now rewrite append_assoc.
Qed.

(** C9, on the code. A relative import with named bindings is rewritten even
    when [inlineImports] is set: the method returns the rewritten statement
    before it looks at the option or at the resolved module. *)
Theorem named_relative_import_not_inlined p elements rawModuleSpecifier importedSym names :
  JS.truthy_bool (inlineImports options) = true ->
  JS.startsWith (unquote rawModuleSpecifier) "." = true ->
  compile p (ImportDeclaration (Some {| namedBindings := Some (NamedImports elements) |})
                               rawModuleSpecifier importedSym) names
  = Return (JS.join ""
              (List.app (pushSpecifiers true elements ["import { "])
                        [" } from '" ++ outPath host options (unquote rawModuleSpecifier)
                         ++ "'"]),
            names).
Proof.
  intros _ Hrelative.
  change (compile p (ImportDeclaration ?c ?r ?s))
    with (_compileImportDeclaration host options compile c r s).
  unfold _compileImportDeclaration, rewrittenImport. cbn [namedBindings].
  now rewrite Hrelative.
Qed.

(** The inlining branch: an import that is not rewritten compiles, when
    [inlineImports] is set and the module resolves, to the compiled
    declarations of the module. *)
Lemma unrewritten_import_inlined p importClause rawModuleSpecifier declarations names :
  JS.truthy_bool (inlineImports options) = true ->
  rewrittenImport host options importClause rawModuleSpecifier = None ->
  compile p (ImportDeclaration importClause rawModuleSpecifier (Some (Some declarations))) names
  = (compiled <- mapM (compile true) declarations ;; ret (JS.join "" compiled)) names.
Proof.
  intros Hinline Hnone.
  change (compile p (ImportDeclaration ?c ?r ?s))
    with (_compileImportDeclaration host options compile c r s).
  unfold _compileImportDeclaration. now rewrite Hnone, Hinline.
Qed.

End ModuleSpecifiers.

(** C8, on the code. With the default options, for any [path] module that
    answers as Node's does on [./foo], the import and the export of
    [Foo as Bar] from [./foo] keep the [Foo as Bar] element but are rewritten to
    the specifier [.foo-schema]: the directory [.] and the name [foo-schema]
    are joined without a separator. *)
Theorem relative_specifier_loses_separator host topNode p names :
  path_extname host "./foo" = "" ->
  path_dirname host "./foo" = "." ->
  path_basename host "./foo" "" = "foo" ->
  compileNode host defaultOptions topNode p Examples.importFoo names
  = Return ("import { Foo as Bar } from '.foo-schema'", names)
  /\ compileNode host defaultOptions topNode p Examples.exportFoo names
     = Return ("export { Foo as Bar } from '.foo-schema'", names).
Proof.
  intros Hext Hdir Hbase.
  assert (Hout : outPath host defaultOptions "./foo" = ".foo-schema").
  { rewrite outPath_without_outDir by reflexivity. now rewrite Hext, Hdir, Hbase. }
  split.
  - change (compileNode host defaultOptions topNode p Examples.importFoo)
      with (_compileImportDeclaration host defaultOptions
              (compileNode host defaultOptions topNode)
              (Some Examples.fooAsBar) "'./foo'" (Some (Some [Examples.fooFile]))).
    unfold _compileImportDeclaration, rewrittenImport.
    change (unquote "'./foo'") with "./foo".
    change (JS.startsWith "./foo" ".") with true. cbv iota.
    cbn [namedBindings Examples.fooAsBar]. rewrite Hout. reflexivity.
  - change (compileNode host defaultOptions topNode p Examples.exportFoo)
      with (_compileExportDeclaration host defaultOptions
              (Some [ {| propertyName := Some "Foo"; name := "Bar" |} ]) (Some "'./foo'")).
    unfold _compileExportDeclaration.
    change (unquote "'./foo'") with "./foo".
    change (JS.startsWith "./foo" ".") with true. cbv iota.
    rewrite Hout. reflexivity.
Qed.

(** * The rules at work on the example inputs *)

Section Worked.

Import Examples.

Local Notation "'compile'" := (compileNode node_host defaultOptions root).

(** Node's answers on [./foo]. *)
Lemma posix_on_foo :
  Posix.extname "./foo" = "" /\ Posix.dirname "./foo" = "."
  /\ Posix.basename "./foo" "" = "foo".
Proof. repeat split; reflexivity. Qed.

(** [Point]: three fields, two of them required. *)
Lemma record_shape_entries_witness :
  let shape := objectShape pointFields ["Joi.number()"; "Joi.number()"; "Joi.string()"] in
  compile true point []
  = Return ("export const Point = Joi.object().keys({" ++ JS.newline
            ++ "  'x': Joi.number().required()," ++ JS.newline
            ++ "  'y': Joi.number().required()," ++ JS.newline
            ++ "  'label': Joi.string()," ++ JS.newline
            ++ "}).strict();",
            ["Point"])
  /\ length shape = 2 + 1
  /\ length (filter entry_required shape) = 2
  /\ map entry_name shape = ["x"; "y"; "label"]
  /\ Forall2 (fun f e => entry_required e = true <-> field_optional f = false)
             pointFields shape.
Proof.
  pose proof (record_shape_entries node_host defaultOptions root true schemaTag (ident "Point")
                pointFields None [] ["Joi.number()"; "Joi.number()"; "Joi.string()"] [] [] []
                eq_refl eq_refl eq_refl eq_refl) as [Hout [Hlen [Hreq [Hnames [Hflags _]]]]].
  repeat split; assumption.
Defined.

(** [Point3 extends A, B]. *)
Lemma inheritance_concat_in_clause_order_witness :
  compile true point3 []
  = Return ("export const Point3 = Joi.object().concat(A).concat(B).keys({" ++ JS.newline
            ++ "  'z': Joi.number().required()," ++ JS.newline
            ++ "}).strict();",
            ["Point3"]).
Proof.
  refine (proj1 (inheritance_concat_in_clause_order node_host defaultOptions root true
                   schemaTag (ident "Point3") point3Members extendsAB
                   (ExpressionWithTypeArguments (Identifier "A"))
                   (ExpressionWithTypeArguments (Identifier "B"))
                   [] ["'z': Joi.number().required()"] [] "A" [] "B" []
                   eq_refl eq_refl eq_refl eq_refl eq_refl _ _)); discriminate.
Defined.

(** [Names extends Array<string>], whose one field compiles, is dropped;
    [StringList], whose index signature throws, and [Mixed], whose second
    inherited expression throws after the first has compiled to [Array], throw. *)
Lemma array_heritage_dropped_witness :
  compile true names [] = Return ("", [])
  /\ compile true stringList []
     = Throw (notSupported "IndexSignature" "[index: number]: string")
  /\ compile true mixed []
     = Throw (notSupported "PropertyAccessExpression" "ns.Base").
Proof.
  split; [|split].
  - refine (proj1 (proj1 (array_heritage_dropped node_host defaultOptions root true schemaTag
                            (ident "Names")
                            [ PropertySignature (ident "total") false (Some NumberKeyword) ]
                            extendsArray [] eq_refl)
                         ["'total': Joi.number().required()"] [] ["Array"] []
                         eq_refl eq_refl _)).
    left. reflexivity.
  - exact (proj1 (proj2 (array_heritage_dropped node_host defaultOptions root true schemaTag
                           (ident "StringList") [ IndexSignature "[index: number]: string" ]
                           extendsArray [] eq_refl))
                 [] (IndexSignature "[index: number]: string") [] [] [] _
                 eq_refl eq_refl eq_refl).
  - exact (proj1 (proj2 (proj2 (array_heritage_dropped node_host defaultOptions root true
                                  schemaTag (ident "Mixed")
                                  [ PropertySignature (ident "total") false
                                      (Some NumberKeyword) ]
                                  extendsArrayAndQualified [] eq_refl)))
                 ["'total': Joi.number().required()"] []
                 [ ExpressionWithTypeArguments (Identifier "Array") ]
                 (ExpressionWithTypeArguments (OtherKind "PropertyAccessExpression" "ns.Base"))
                 [] ["Array"] [] _
                 eq_refl eq_refl eq_refl eq_refl).
Defined.

(** C7, as stated, fails on [StringList extends Array<string>] with an index
    signature: the declaration is eligible and its inherited expression
    compiles to [Array], yet compiling it throws, because the members are
    compiled before the inherited expressions are looked at. *)
Lemma array_heritage_member_error :
  hasTag schemaTag "schema" = true
  /\ compileHeritageClauses compile extendsArray [] = Return (["Array"], [])
  /\ compile true stringList []
     = Throw (Error ("Node IndexSignature not supported by ts-joi-schema-generator: "
                     ++ "[index: number]: string")).
Proof. repeat split; reflexivity. Qed.

(** [Size]: tagged, and also untagged. *)
Lemma enum_declaration_witness :
  compile true (EnumDeclaration [] (ident "Size") sizeMembers) [] = Return ("", [])
  /\ compile true size []
     = Return ("export const Size = Joi.valid(1, undefined).strict();", ["Size"]).
Proof.
  split.
  - exact (proj1 (enum_declaration node_host defaultOptions root true []
                    (ident "Size") sizeMembers []) eq_refl).
  - exact (proj1 (proj2 (enum_declaration node_host defaultOptions root true schemaTag
                           (ident "Size") sizeMembers []) eq_refl)).
Defined.

(** The second member of [Size] has no constant. *)
Lemma unresolved_enum_member_is_undefined_witness :
  exists values,
    compile true size []
    = Return ("export const " ++ "Size" ++ " = Joi.valid(" ++ JS.join ", " values
              ++ ").strict();",
              ["Size"])
    /\ length values = 2
    /\ nth_error values 1 = Some "undefined".
Proof.
  exact (unresolved_enum_member_is_undefined node_host defaultOptions root true schemaTag
           (ident "Size") sizeMembers [] 1
           {| member_name := ident "Large"; constantValue := None |}
           eq_refl eq_refl eq_refl).
Defined.

(** C5, as stated, fails on [Size]: its member [Large] has no constant, and
    the declaration compiles to a schema that lists [undefined]. *)
Lemma unresolved_enum_member_compiles :
  (exists m, In m sizeMembers /\ constantValue m = None)
  /\ compile true size []
     = Return ("export const Size = Joi.valid(1, undefined).strict();", ["Size"])
  /\ (forall e, compile true size [] <> Throw e).
Proof.
  split; [|split].
  - exists {| member_name := ident "Large"; constantValue := None |}.
    split; [right; left|]; reflexivity.
  - reflexivity.
  - intros e. discriminate.
Qed.

(** [import { Foo as Bar } from './foo'] under [inlineImports], with [./foo]
    resolved: the statement is rewritten, the declarations of [./foo] are not
    compiled in its place. *)
Lemma named_relative_import_not_inlined_witness :
  compileNode node_host inlining root true importFoo []
  = Return ("import { Foo as Bar } from '.foo-schema'", []).
Proof.
  exact (named_relative_import_not_inlined node_host inlining root true
           [ {| propertyName := Some "Foo"; name := "Bar" |} ] "'./foo'"
           (Some (Some [fooFile])) [] eq_refl eq_refl).
Defined.

(** What inlining [./foo] gives where the code does reach it: under a
    namespace import. *)
Lemma namespace_import_inlined :
  compileNode node_host inlining root true
    (ImportDeclaration (Some {| namedBindings := Some (NamespaceImport "* as foo") |})
                       "'./foo'" (Some (Some [fooFile]))) []
  = Return ("export const Foo = Joi.object().keys({" ++ JS.newline
            ++ "  'id': Joi.string().required()," ++ JS.newline
            ++ "}).strict();",
            ["Foo"]).
Proof. reflexivity. Qed.

(** The import and the export of [./foo] under Node's [path]. *)
Lemma relative_specifier_loses_separator_witness :
  compile true importFoo [] = Return ("import { Foo as Bar } from '.foo-schema'", [])
  /\ compile true exportFoo [] = Return ("export { Foo as Bar } from '.foo-schema'", []).
Proof.
  exact (relative_specifier_loses_separator node_host root true []
           eq_refl eq_refl eq_refl).
Defined.

(** A root file with a tagged interface, a statement of an unsupported kind
    and a tagged enum: the statement in the middle leaves no trace. *)
Lemma root_file_output :
  Compiler_compile node_host defaultOptions root
    [point; OtherKind "VariableStatement" "const x = 1;"; size]
  = Return ("import * as Joi from " ++ JS.dquote ++ "joi" ++ JS.dquote ++ ";" ++ JS.newline
            ++ "// tslint:disable:object-literal-key-quotes" ++ JS.newline
            ++ JS.newline
            ++ "export const Point = Joi.object().keys({" ++ JS.newline
            ++ "  'x': Joi.number().required()," ++ JS.newline
            ++ "  'y': Joi.number().required()," ++ JS.newline
            ++ "  'label': Joi.string()," ++ JS.newline
            ++ "}).strict();" ++ JS.newline
            ++ JS.newline
            ++ "export const Size = Joi.valid(1, undefined).strict();" ++ JS.newline
            ++ JS.newline).
Proof. reflexivity. Qed.

(** The same statement as the type of a field throws. *)
Lemma nested_statement_throws :
  Compiler_compile node_host defaultOptions root
    [ InterfaceDeclaration schemaTag (ident "Bad")
        [ PropertySignature (ident "x") false
            (Some (OtherKind "TypeQuery" "typeof y")) ] None ]
  = Throw (Error "Node TypeQuery not supported by ts-joi-schema-generator: typeof y").
Proof. reflexivity. Qed.

(** With [outDir] set the same import gets the specifier the default policy
    misses. *)
Lemma import_with_outDir :
  compileNode node_host
    {| ignoreGenerics := None; ignoreIndexSignature := None; inlineImports := None;
       outDir := Some "out"; suffix := defaultSuffix |}
    root true importFoo []
  = Return ("import { Foo as Bar } from './foo-schema'", []).
Proof. reflexivity. Qed.

End Worked.

(** * Further properties of the compiler *)

(** ** The exported names only grow *)

Lemma extendsNames_refl names : extendsNames names names.
Proof. exists []. now rewrite app_nil_r. Qed.

Lemma extendsNames_trans a b c : extendsNames a b -> extendsNames b c -> extendsNames a c.
Proof. intros [x ->] [y ->]. exists (x ++ y)%list. now rewrite app_assoc. Qed.

Lemma extendsNames_push names name : extendsNames names (names ++ [name])%list.
Proof. now exists [name]. Qed.

(** [bind] on a state, spelled out. *)
Lemma bind_unfold {A B} (m : M A) (k : A -> M B) names :
  bind m k names
  = match m names with
    | Return (a, names') => k a names'
    | Throw e => Throw e
    end.
Proof. reflexivity. Qed.

Section OnlyPushes.

Variable host : Host.
Variable options : ICompilerOptions.
Variable topNode : string.

Local Notation "'compile'" := (compileNode host options topNode).

Lemma mapM_onlyPushes (xs : list Node) :
  Forall (onlyPushes host options topNode) xs ->
  forall p names rs names',
    mapM (compile p) xs names = Return (rs, names') -> extendsNames names names'.
Proof.
  induction 1 as [|x xs Hx _ IH]; intros p names rs names' H.
  - rewrite mapM_nil in H. injection H as _ <-. apply extendsNames_refl.
  - rewrite mapM_cons in H. unfold bind in H.
    destruct (compile p x names) as [[y n1]|e] eqn:Ex; [|discriminate].
    destruct (mapM (compile p) xs n1) as [[ys n2]|e] eqn:Exs; [|discriminate].
    injection H as _ <-.
    exact (extendsNames_trans _ _ _ (Hx _ _ _ _ Ex) (IH _ _ _ _ Exs)).
Qed.

(** Every child in a list only pushes; [IH] is the statement for the nodes
    below the current one. *)
Ltac children_only_push IH xs :=
  assert (Hall : Forall (onlyPushes host options topNode) xs)
    by (clear - IH; induction xs as [|m xs IHxs]; constructor; [exact (IH m) | exact IHxs]).

Lemma compileNode_onlyPushes : forall node, onlyPushes host options topNode node.
Proof.
  fix IH 1. intros node.
  destruct node; intros p names r names' H; cbn [compileNode] in H;
    try (injection H as _ <-; apply extendsNames_refl).
  - (* ParameterDeclaration *)
    unfold _compileParameterDeclaration, compileOptType, bind in H.
    destruct type as [t|].
    + destruct (compile false t names) as [[y n1]|e] eqn:Et; [|discriminate].
      injection H as _ <-. exact (IH t _ _ _ _ Et).
    + injection H as _ <-. apply extendsNames_refl.
  - (* PropertySignature *)
    unfold _compilePropertySignature, compileOptType, bind in H.
    destruct type as [t|].
    + destruct (compile false t names) as [[y n1]|e] eqn:Et; [|discriminate].
      injection H as _ <-. exact (IH t _ _ _ _ Et).
    + injection H as _ <-. apply extendsNames_refl.
  - (* TypeReference *)
    unfold _compileTypeReferenceNode in H.
    destruct typeArguments as [[|first rest]|].
    + destruct (String.eqb typeName "Array"); [discriminate|].
      destruct (JS.truthy_bool (ignoreGenerics options)); [|discriminate].
      injection H as _ <-. apply extendsNames_refl.
    + destruct (String.eqb typeName "Array").
      * unfold bind in H.
        destruct (compile false first names) as [[y n1]|e] eqn:Et; [|discriminate].
        injection H as _ <-. exact (IH first _ _ _ _ Et).
      * destruct (JS.truthy_bool (ignoreGenerics options)); [|discriminate].
        injection H as _ <-. apply extendsNames_refl.
    + destruct (String.eqb typeName "Date"); [injection H as _ <-; apply extendsNames_refl|].
      destruct (String.eqb typeName "Buffer"); injection H as _ <-; apply extendsNames_refl.
  - (* TypeLiteral *)
    children_only_push IH members.
    unfold _compileTypeLiteralNode, bind in H.
    destruct (mapM (compile false) members names) as [[ys n1]|e] eqn:Ems; [|discriminate].
    injection H as _ <-. exact (mapM_onlyPushes _ Hall _ _ _ _ Ems).
  - (* ArrayType *)
    unfold _compileArrayTypeNode, bind in H.
    destruct (compile false node names) as [[y n1]|e] eqn:Et; [|discriminate].
    injection H as _ <-. exact (IH node _ _ _ _ Et).
  - (* TupleType *)
    children_only_push IH elementTypes.
    unfold _compileTupleTypeNode, bind in H.
    destruct (mapM (compile false) elementTypes names) as [[ys n1]|e] eqn:Ems; [|discriminate].
    injection H as _ <-. exact (mapM_onlyPushes _ Hall _ _ _ _ Ems).
  - (* UnionType *)
    match type of H with
    | _compileUnionTypeNode _ ?xs _ = _ => children_only_push IH xs;
        unfold _compileUnionTypeNode, bind in H;
        destruct (mapM (compile false) xs names) as [[ys n1]|e] eqn:Ems; [|discriminate]
    end.
    injection H as _ <-. exact (mapM_onlyPushes _ Hall _ _ _ _ Ems).
  - (* EnumDeclaration *)
    unfold _compileEnumDeclaration in H.
    destruct (hasTag jsDocTags "schema"); cbn [negb] in H.
    + cbv [bind push_exportedName ret] in H. injection H as _ <-. apply extendsNames_push.
    + injection H as _ <-. apply extendsNames_refl.
  - (* InterfaceDeclaration *)
    children_only_push IH members.
    assert (Hinherited : Forall (onlyPushes host options topNode)
                                (inheritedTypes heritageClauses)).
    { clear - IH. destruct heritageClauses as [clauses|]; [|constructor].
      cbn [inheritedTypes].
      induction clauses as [|[ts] clauses IHclauses]; [constructor|].
      cbn [map List.concat types]. apply Forall_app. split; [|exact IHclauses].
      induction ts as [|t ts IHts]; constructor; [exact (IH t) | exact IHts]. }
    unfold _compileInterfaceDeclaration in H.
    destruct (hasTag jsDocTags "schema"); cbn [negb] in H;
      [|injection H as _ <-; apply extendsNames_refl].
    unfold bind in H.
    destruct (mapM (compile false) members names) as [[ys n1]|e] eqn:Ems; [|discriminate].
    rewrite compileHeritageClauses_inherited in H.
    destruct (mapM (compile false) (inheritedTypes heritageClauses) n1)
      as [[extend n2]|e] eqn:Eext; [|discriminate].
    pose proof (extendsNames_trans _ _ _ (mapM_onlyPushes _ Hall _ _ _ _ Ems)
                  (mapM_onlyPushes _ Hinherited _ _ _ _ Eext)) as Hsub.
    destruct (JS.includes "Array" extend).
    + injection H as _ <-. exact Hsub.
    + cbv [push_exportedName ret] in H. injection H as _ <-.
      exact (extendsNames_trans _ _ _ Hsub (extendsNames_push _ _)).
  - (* TypeAliasDeclaration *)
    unfold _compileTypeAliasDeclaration in H.
    destruct (hasTag jsDocTags "schema"); cbn [negb] in H;
      [|injection H as _ <-; apply extendsNames_refl].
    unfold bind in H. cbv [push_exportedName] in H.
    destruct (compile false node (names ++ [getName name0])%list) as [[y n1]|e] eqn:Et;
      [|discriminate].
    injection H as _ <-.
    exact (extendsNames_trans _ _ _ (extendsNames_push _ _) (IH node _ _ _ _ Et)).
  - (* ExpressionWithTypeArguments *) exact (IH node _ _ _ _ H).
  - (* ParenthesizedType *) exact (IH node _ _ _ _ H).
  - (* ExportDeclaration *)
    unfold _compileExportDeclaration in H.
    destruct exportClause as [elements|]; [|injection H as _ <-; apply extendsNames_refl].
    destruct moduleSpecifier as [raw|]; [|injection H as _ <-; apply extendsNames_refl].
    destruct (JS.startsWith (unquote raw) "."); injection H as _ <-; apply extendsNames_refl.
  - (* ImportDeclaration *)
    unfold _compileImportDeclaration in H.
    destruct (rewrittenImport host options importClause moduleSpecifier);
      [injection H as _ <-; apply extendsNames_refl|].
    destruct (JS.truthy_bool (inlineImports options));
      [|injection H as _ <-; apply extendsNames_refl].
    destruct importedSym as [[declarations|]|];
      try (injection H as _ <-; apply extendsNames_refl).
    children_only_push IH declarations.
    unfold bind in H.
    destruct (mapM (compile true) declarations names) as [[ys n1]|e] eqn:Eds; [|discriminate].
    injection H as _ <-. exact (mapM_onlyPushes _ Hall _ _ _ _ Eds).
  - (* SourceFile *)
    children_only_push IH statements.
    assert (Hstatements : forall out n, _compileSourceFileStatements compile statements names
                                        = Return (out, n) -> extendsNames names n).
    { intros out n Hs. unfold _compileSourceFileStatements, bind in Hs.
      destruct (mapM (compile true) statements names) as [[ys n1]|e] eqn:Ess; [|discriminate].
      injection Hs as _ <-. exact (mapM_onlyPushes _ Hall _ _ _ _ Ess). }
    unfold _compileSourceFile in H.
    destruct (negb (String.eqb fileName topNode)); [exact (Hstatements _ _ H)|].
    unfold bind in H.
    destruct (_compileSourceFileStatements compile statements names) as [[body n1]|e] eqn:Eb;
      [|discriminate].
    injection H as _ <-. exact (Hstatements _ _ eq_refl).
  - (* IndexSignature *)
    unfold _compileIndexSignatureDeclaration in H.
    destruct (JS.truthy_bool (ignoreIndexSignature options)); [|discriminate].
    injection H as _ <-. apply extendsNames_refl.
  - (* OtherKind *)
    destruct p; [|discriminate]. injection H as _ <-. apply extendsNames_refl.
Qed.

End OnlyPushes.

(** X1. Whatever node is compiled, the exported names it returns with are the
    ones it started with, followed by the names pushed meanwhile: nothing is
    removed or reordered. *)
Theorem exported_names_only_grow host options topNode p node names r names' :
  compileNode host options topNode p node names = Return (r, names') ->
  exists added, names' = (names ++ added)%list.
Proof. apply compileNode_onlyPushes. Qed.

(** ** Files *)

Section Files.

Variable host : Host.
Variable options : ICompilerOptions.
Variable topNode : string.

Local Notation "'compile'" := (compileNode host options topNode).

Lemma silentStatement_compiles node names :
  silentStatement node = true -> compile true node names = Return ("", names).
Proof.
  destruct node; try discriminate; cbn [silentStatement compileNode]; intros H.
  - unfold _compileEnumDeclaration. now rewrite H.
  - unfold _compileInterfaceDeclaration. now rewrite H.
  - unfold _compileTypeAliasDeclaration. now rewrite H.
  - unfold _compileExportDeclaration.
    destruct exportClause; [destruct moduleSpecifier; [discriminate|]|]; reflexivity.
  - reflexivity.
Qed.

Lemma silentStatements_compile statements names :
  forallb silentStatement statements = true ->
  mapM (compile true) statements names = Return (map (fun _ => "") statements, names).
Proof.
  induction statements as [|s statements IH]; intros H; [reflexivity|].
  cbn [forallb] in H. apply andb_prop in H as [Hs Hrest].
  eapply mapM_cons_Return; [apply silentStatement_compiles, Hs | apply IH, Hrest].
Qed.

Lemma filter_silent (statements : list Node) :
  filter (fun s => negb (String.eqb s "")) (map (fun _ : Node => "") statements) = [].
Proof. induction statements as [|s statements IH]; [reflexivity | exact IH]. Qed.

(** X2. A root file that holds only untagged declarations, statements of
    unsupported kinds and exports without named elements compiles, whatever
    those statements contain, to the preamble followed by a blank line, and
    exports no name. *)
Theorem silent_file_is_preamble p statements names :
  forallb silentStatement statements = true ->
  compile p (SourceFile topNode statements) names
  = Return (preamble ++ JS.newline ++ JS.newline, names).
Proof.
  intros H. cbn [compileNode]. unfold _compileSourceFile.
  rewrite String.eqb_refl. cbn [negb].
  unfold bind, _compileSourceFileStatements, bind.
  rewrite (silentStatements_compile _ _ H). unfold ret.
  rewrite filter_silent. reflexivity.
Qed.

End Files.

(** ** Type annotations and aliases *)

Section TypeNodes.

Variable host : Host.
Variable options : ICompilerOptions.
Variable topNode : string.

Local Notation "'compile'" := (compileNode host options topNode).

(** Every rule for a type starts its text with a call on [Joi]. *)
Lemma typeNode_prefix node :
  isTypeNode node = true ->
  forall p names r names',
    compile p node names = Return (r, names') -> JS.startsWith r "Joi." = true.
Proof.
  induction node; try discriminate; intros Htype p names r names' H;
    cbn [compileNode] in H;
    try (injection H as <- _; reflexivity).
  - (* TypeReference *)
    unfold _compileTypeReferenceNode in H.
    destruct typeArguments as [[|first rest]|].
    + destruct (String.eqb typeName "Array"); [discriminate|].
      destruct (JS.truthy_bool (ignoreGenerics options)); [|discriminate].
      injection H as <- _. reflexivity.
    + destruct (String.eqb typeName "Array").
      * unfold bind in H.
        destruct (compile false first names) as [[y n1]|e]; [|discriminate].
        injection H as <- _. reflexivity.
      * destruct (JS.truthy_bool (ignoreGenerics options)); [|discriminate].
        injection H as <- _. reflexivity.
    + destruct (String.eqb typeName "Date"); [injection H as <- _; reflexivity|].
      destruct (String.eqb typeName "Buffer"); injection H as <- _; reflexivity.
  - (* TypeLiteral *)
    unfold _compileTypeLiteralNode, bind in H.
    destruct (mapM (compile false) members names) as [[ys n1]|e]; [|discriminate].
    injection H as <- _. reflexivity.
  - (* ArrayType *)
    unfold _compileArrayTypeNode, bind in H.
    destruct (compile false node names) as [[y n1]|e]; [|discriminate].
    injection H as <- _. reflexivity.
  - (* TupleType *)
    unfold _compileTupleTypeNode, bind in H.
    destruct (mapM (compile false) elementTypes names) as [[ys n1]|e]; [|discriminate].
    injection H as <- _. reflexivity.
  - (* UnionType *)
    unfold _compileUnionTypeNode, bind in H.
    match type of H with
    | context [mapM ?f ?xs names] =>
        destruct (mapM f xs names) as [[ys n1]|e]; [|discriminate]
    end.
    injection H as <- _. reflexivity.
  - (* ParenthesizedType *)
    exact (IHnode Htype _ _ _ _ H).
Qed.

Lemma Joi_prefix_facts r :
  JS.startsWith r "Joi." = true ->
  JS.startsWith r JS.dquote = false /\ String.eqb r ignoreNode = false.
Proof.
  unfold JS.startsWith. destruct r as [|c r]; [discriminate|].
  intros H. cbn [String.prefix] in H.
  destruct (Ascii.ascii_dec "J" c) as [<-|Hc]; [split; reflexivity | discriminate H].
Qed.

(** X3. The text a type annotation compiles to always starts with [Joi.]: it
    is never the empty fragment, and never a bare string literal. *)
Theorem type_text_is_a_Joi_call p node names r names' :
  isTypeNode node = true ->
  compile p node names = Return (r, names') ->
  JS.startsWith r "Joi." = true
  /\ r <> ""
  /\ JS.startsWith r JS.dquote = false.
Proof.
  intros Htype H. pose proof (typeNode_prefix _ Htype _ _ _ _ H) as Hjoi.
  destruct (Joi_prefix_facts _ Hjoi) as [Hquote Hempty].
  split; [exact Hjoi | split; [|exact Hquote]].
  intros ->. discriminate Hjoi.
Qed.

(** X4. An eligible type alias pushes its name first and then compiles the
    aliased type; for a type annotation the result is the text of the type
    followed by [.strict()], never wrapped in a further [Joi.valid(...)]. *)
Theorem type_alias_of_type p jsDocTags name type names t names' :
  hasTag jsDocTags "schema" = true ->
  isTypeNode type = true ->
  compile false type (names ++ [getName name])%list = Return (t, names') ->
  compile p (TypeAliasDeclaration jsDocTags name type) names
  = Return ("export const " ++ getName name ++ " = " ++ t ++ ".strict();", names').
Proof.
  intros Htag Htype H. cbn [compileNode]. unfold _compileTypeAliasDeclaration.
  rewrite Htag. cbn [negb]. unfold bind at 1. cbv [push_exportedName].
  rewrite (bind_Return _ _ _ _ _ H). cbv beta.
  destruct (Joi_prefix_facts _ (typeNode_prefix _ Htype _ _ _ _ H)) as [-> _].
  reflexivity.
Qed.

(** X14. A union of literal types compiles, without error and without touching
    the exported names, to the alternatives of one [Joi.valid(...)] per
    literal, in order. *)
Theorem union_of_literals p texts names :
  compile p (UnionType (map LiteralType texts)) names
  = Return ("Joi.alternatives("
            ++ JS.join ", " (map (fun text => "Joi.valid(" ++ text ++ ")") texts) ++ ")",
            names).
Proof.
  cbn [compileNode]. unfold _compileUnionTypeNode.
  assert (H : mapM (compile false) (map LiteralType texts) names
              = Return (map (fun text => "Joi.valid(" ++ text ++ ")") texts, names)).
  { induction texts as [|text texts IH]; [reflexivity|].
    cbn [map]. eapply mapM_cons_Return; [reflexivity | exact IH]. }
  now rewrite (bind_Return _ _ _ _ _ H).
Qed.

(** [Array<T>] and [T[]] are compiled alike: same text, same exported names,
    same error; further type arguments of [Array] are not looked at. *)
Lemma array_reference_is_array_type p p' text elementType rest names :
  compile p (TypeReference text "Array" (Some (elementType :: rest))) names
  = compile p' (ArrayType elementType) names.
Proof. reflexivity. Qed.

End TypeNodes.

(** ** Index signatures *)

Section IndexSignatures.

Variable host : Host.
Variable options : ICompilerOptions.
Variable topNode : string.

Local Notation "'compile'" := (compileNode host options topNode).

Lemma ignored_index_signature text names :
  JS.truthy_bool (ignoreIndexSignature options) = true ->
  compile false (IndexSignature text) names = Return ("", names).
Proof.
  intros H. cbn [compileNode]. unfold _compileIndexSignatureDeclaration. now rewrite H.
Qed.

(** X5. With [ignoreIndexSignature] set, an index signature among the members
    of a record-type declaration leaves no trace: the declaration compiles to
    what it compiles to without that member, be it a text or an error. *)
Theorem interface_drops_ignored_index_signature
    p jsDocTags name before text after heritageClauses names :
  JS.truthy_bool (ignoreIndexSignature options) = true ->
  compile p (InterfaceDeclaration jsDocTags name
               (before ++ IndexSignature text :: after)%list heritageClauses) names
  = compile p (InterfaceDeclaration jsDocTags name (before ++ after)%list heritageClauses)
      names.
Proof.
  intros Hignore. cbn [compileNode]. unfold _compileInterfaceDeclaration.
  destruct (negb (hasTag jsDocTags "schema")); [reflexivity|].
  rewrite !bind_unfold, !mapM_app.
  destruct (mapM (compile false) before names) as [[bs n1]|e]; [|reflexivity].
  rewrite mapM_cons, bind_unfold, (ignored_index_signature _ _ Hignore), bind_unfold.
  destruct (mapM (compile false) after n1) as [[cs n2]|e]; [|reflexivity].
  unfold ret at 1. cbv beta iota. rewrite !filter_app. reflexivity.
Qed.

(** X6. Inside an anonymous record type the empty fragments are not filtered
    out: with [ignoreIndexSignature] set, an index signature among its members
    leaves a line that holds only the separating comma. *)
Theorem type_literal_keeps_ignored_index_signature
    p before text after names compiledBefore names1 compiledAfter names2 :
  JS.truthy_bool (ignoreIndexSignature options) = true ->
  mapM (compile false) before names = Return (compiledBefore, names1) ->
  mapM (compile false) after names1 = Return (compiledAfter, names2) ->
  compile p (TypeLiteral (before ++ IndexSignature text :: after)%list) names
  = Return ("Joi.object().keys({" ++ JS.newline
            ++ JS.join "" (map entryLine compiledBefore)
            ++ ("  ," ++ JS.newline)
            ++ JS.join "" (map entryLine compiledAfter)
            ++ "})",
            names2).
Proof.
  intros Hignore Hbefore Hafter. cbn [compileNode]. unfold _compileTypeLiteralNode.
  assert (H : mapM (compile false) (before ++ IndexSignature text :: after)%list names
              = Return ((compiledBefore ++ "" :: compiledAfter)%list, names2)).
  { rewrite mapM_app, Hbefore, mapM_cons. unfold bind.
    rewrite (ignored_index_signature _ _ Hignore), Hafter. reflexivity. }
  rewrite (bind_Return _ _ _ _ _ H). cbv beta. unfold ret. do 2 f_equal.
  change (fun n : string => "  " ++ indent n ++ "," ++ JS.newline) with entryLine.
  change (compiledBefore ++ "" :: compiledAfter)%list
    with (compiledBefore ++ [""] ++ compiledAfter)%list.
  rewrite !map_app, !join_empty_app.
  change (JS.join "" (map entryLine [""])) with ("  ," ++ JS.newline).
  rewrite !append_assoc. reflexivity.
Qed.

End IndexSignatures.

(** ** Module specifiers and clauses *)

Lemma length_append (a b : string) :
  String.length (a ++ b) = String.length a + String.length b.
Proof. induction a as [|c a IH]; simpl; [reflexivity | now rewrite IH]. Qed.

Lemma substring_prefix (a b : string) : String.substring 0 (String.length a) (a ++ b) = a.
Proof.
  induction a as [|c a IH]; simpl.
  - destruct b; reflexivity.
  - now rewrite IH.
Qed.

(** Within the string, [substring] is the slice between its two indices. *)
Lemma substring_within (s : string) (start end_ : Z) :
  (0 <= start <= end_)%Z -> (end_ <= Z.of_nat (String.length s))%Z ->
  JS.substring s start end_
  = String.substring (Z.to_nat start) (Z.to_nat (end_ - start)) s.
Proof.
  intros H1 H2. unfold JS.substring, JS.clamp.
  replace (Z.max 0 (Z.min start (Z.of_nat (String.length s)))) with start by lia.
  replace (Z.max 0 (Z.min end_ (Z.of_nat (String.length s)))) with end_ by lia.
  replace (Z.min start end_) with start by lia.
  replace (Z.max start end_) with end_ by lia.
  reflexivity.
Qed.

(** Taking the quotes off a quoted specifier gives the specifier back. *)
Lemma unquote_quoted quote spec : unquote (quoted quote spec) = spec.
Proof.
  unfold unquote, quoted.
  assert (Hlen : String.length (String quote (spec ++ String quote EmptyString))
                 = S (S (String.length spec))).
  { cbn [String.length]. rewrite length_append. cbn [String.length]. lia. }
  rewrite substring_within by (rewrite Hlen; lia).
  rewrite Hlen.
  replace (Z.to_nat (Z.of_nat (S (S (String.length spec))) - 1 - 1))
    with (String.length spec) by lia.
  change (Z.to_nat 1) with 1. cbn [String.substring].
  apply substring_prefix.
Qed.

Section Clauses.

Variable host : Host.
Variable options : ICompilerOptions.
Variable topNode : string.

Local Notation "'compile'" := (compileNode host options topNode).

(** X7. An export of named elements from a quoted specifier never throws and
    exports no schema name.  From a specifier that starts with a dot it is
    rewritten to the elements, each as written ([original as local], or its
    name), separated by commas and in order, from the new path in single
    quotes; from any other specifier it is dropped. *)
Theorem export_declaration_rewritten p elements quote spec names :
  compile p (ExportDeclaration (Some elements) (Some (quoted quote spec))) names
  = Return ((if JS.startsWith spec "."
             then "export { " ++ JS.join ", " (map specifierPart elements)
                  ++ " } from '" ++ outPath host options spec ++ "'"
             else ""),
            names).
Proof.
  cbn [compileNode]. unfold _compileExportDeclaration. rewrite unquote_quoted.
  destruct (JS.startsWith spec "."); [|reflexivity].
  unfold ret. do 2 f_equal.
  rewrite join_empty_app, pushSpecifiers_join.
  change (JS.join "" ["export { "]) with "export { ".
  change (JS.join "" [?x]) with x.
  now rewrite append_assoc.
Qed.

(** X8. Without [inlineImports], an import of named elements from a quoted
    specifier never throws and exports no name.  From a specifier that starts
    with a dot it is rewritten to the elements, each as written, separated by
    commas and in order, from the new path in single quotes; from any other
    specifier it is dropped, whatever the checker resolved it to. *)
Theorem import_declaration_rewritten p elements quote spec importedSym names :
  JS.truthy_bool (inlineImports options) = false ->
  compile p (ImportDeclaration (Some {| namedBindings := Some (NamedImports elements) |})
                               (quoted quote spec) importedSym) names
  = Return ((if JS.startsWith spec "."
             then "import { " ++ JS.join ", " (map specifierPart elements)
                  ++ " } from '" ++ outPath host options spec ++ "'"
             else ""),
            names).
Proof.
  intros Hinline. cbn [compileNode]. unfold _compileImportDeclaration.
  destruct (JS.startsWith spec ".") eqn:Hrelative.
  - rewrite rewrittenImport_named by (now rewrite unquote_quoted).
    now rewrite unquote_quoted.
  - unfold rewrittenImport. rewrite unquote_quoted, Hrelative, Hinline. reflexivity.
Qed.

(** X12. With [inlineImports], an import that is not rewritten and that the
    checker resolves to one source file other than the root compiles to what
    the statements of that file compile to: their fragments separated by
    blank lines, without the preamble, their names exported. *)
Theorem imported_file_inlined p importClause rawModuleSpecifier fileName statements names :
  JS.truthy_bool (inlineImports options) = true ->
  rewrittenImport host options importClause rawModuleSpecifier = None ->
  String.eqb fileName topNode = false ->
  compile p (ImportDeclaration importClause rawModuleSpecifier
               (Some (Some [SourceFile fileName statements]))) names
  = _compileSourceFileStatements compile statements names.
Proof.
  intros Hinline Hnone Hfile. cbn [compileNode]. unfold _compileImportDeclaration.
  rewrite Hnone, Hinline. rewrite bind_unfold, mapM_cons, bind_unfold.
  cbn [compileNode]. unfold _compileSourceFile. rewrite Hfile. cbn [negb].
  destruct (_compileSourceFileStatements compile statements names) as [[body n]|e];
    [|reflexivity].
  rewrite bind_unfold, mapM_nil. unfold ret. reflexivity.
Qed.

End Clauses.

(** ** Statements of a file *)

Lemma concat_nonempty (sep x : string) (rest : list string) :
  x <> "" -> String.eqb (String.concat sep (x :: rest)) "" = false.
Proof.
  intros Hx. destruct x as [|c x]; [contradiction|].
  destruct rest; reflexivity.
Qed.

Lemma concat_app_nonempty (sep : string) (xs ys : list string) :
  xs <> [] -> ys <> [] ->
  String.concat sep (xs ++ ys)%list
  = String.concat sep xs ++ sep ++ String.concat sep ys.
Proof.
  intros Hxs Hys. induction xs as [|x xs IH]; [contradiction|].
  destruct xs as [|x' xs].
  - destruct ys as [|y ys]; [contradiction | reflexivity].
  - change (String.concat sep ((x :: x' :: xs) ++ ys)%list)
      with (x ++ sep ++ String.concat sep ((x' :: xs) ++ ys)%list).
    change (String.concat sep (x :: x' :: xs))
      with (x ++ sep ++ String.concat sep (x' :: xs)).
    rewrite IH by discriminate. now rewrite !append_assoc.
Qed.

(** Joining the non-empty fragments of two lists is joining the two joins. *)
Lemma join_fragments (sep : string) (cs ds : list string) :
  let keep := filter (fun s => negb (String.eqb s "")) in
  String.concat sep (keep cs ++ keep ds)%list
  = (if String.eqb (String.concat sep (keep cs)) "" then String.concat sep (keep ds)
     else if String.eqb (String.concat sep (keep ds)) "" then String.concat sep (keep cs)
     else String.concat sep (keep cs) ++ sep ++ String.concat sep (keep ds)).
Proof.
  intros keep.
  assert (Hkeep : forall l x rest, keep l = x :: rest -> x <> "").
  { intros l x rest Hl.
    assert (Hin : In x (keep l)) by (rewrite Hl; now left).
    apply filter_In in Hin as [_ Hx]. intros ->. discriminate Hx. }
  destruct (keep cs) as [|c cs'] eqn:Ecs; [reflexivity|].
  rewrite (concat_nonempty sep c cs' (Hkeep _ _ _ Ecs)).
  destruct (keep ds) as [|d ds'] eqn:Eds.
  - now rewrite app_nil_r.
  - rewrite (concat_nonempty sep d ds' (Hkeep _ _ _ Eds)).
    apply concat_app_nonempty; discriminate.
Qed.

Section Statements.

Variable host : Host.
Variable options : ICompilerOptions.
Variable topNode : string.

Local Notation "'compile'" := (compileNode host options topNode).

(** X9. Compiling the statements of a file is compositional: the output for
    two lists of statements one after the other is the two outputs, separated
    by a blank line when neither is empty, and the exported names are
    threaded from the first list to the second. *)
Theorem statements_compose first second names a names1 b names2 :
  _compileSourceFileStatements compile first names = Return (a, names1) ->
  _compileSourceFileStatements compile second names1 = Return (b, names2) ->
  _compileSourceFileStatements compile (first ++ second)%list names
  = Return (joinFragments a b, names2).
Proof.
  unfold _compileSourceFileStatements. rewrite !bind_unfold, mapM_app.
  destruct (mapM (compile true) first names) as [[cs n1]|e]; [|discriminate].
  intros Hfirst. injection Hfirst as <- <-.
  destruct (mapM (compile true) second n1) as [[ds n2]|e]; [|discriminate].
  intros Hsecond. injection Hsecond as <- <-.
  unfold ret, joinFragments, JS.join. rewrite filter_app.
  now rewrite join_fragments.
Qed.

(** X10. An error thrown by a statement aborts its file: when the statements
    before it compile, the file, root or imported, throws that error and gives
    no output, whatever follows the statement. *)
Theorem statement_error_aborts_file
    p fileName before statement after names compiled names1 e :
  mapM (compile true) before names = Return (compiled, names1) ->
  compile true statement names1 = Throw e ->
  compile p (SourceFile fileName (before ++ statement :: after)%list) names = Throw e.
Proof.
  intros Hbefore Hthrow.
  assert (H : _compileSourceFileStatements compile (before ++ statement :: after)%list names
              = Throw e).
  { unfold _compileSourceFileStatements.
    rewrite bind_unfold, mapM_app, Hbefore, mapM_cons, bind_unfold, Hthrow. reflexivity. }
  cbn [compileNode]. unfold _compileSourceFile.
  destruct (negb (String.eqb fileName topNode)); [exact H|].
  now rewrite bind_unfold, H.
Qed.

(** X11. An error thrown by a member aborts an eligible record-type
    declaration: when the members before it compile, the declaration throws
    that error, whatever it inherits from and whatever follows the member. *)
Theorem member_error_aborts_interface
    p jsDocTags name before member after heritageClauses names compiled names1 e :
  hasTag jsDocTags "schema" = true ->
  mapM (compile false) before names = Return (compiled, names1) ->
  compile false member names1 = Throw e ->
  compile p (InterfaceDeclaration jsDocTags name (before ++ member :: after)%list
               heritageClauses) names
  = Throw e.
Proof.
  intros Htag Hbefore Hthrow. cbn [compileNode]. unfold _compileInterfaceDeclaration.
  rewrite Htag. cbn [negb].
  rewrite bind_unfold, mapM_app, Hbefore, mapM_cons, bind_unfold, Hthrow. reflexivity.
Qed.

End Statements.

(** ** Indentation *)

Lemma countNewlines_app (a b : string) :
  countNewlines (a ++ b) = countNewlines a + countNewlines b.
Proof. induction a as [|c a IH]; simpl; [reflexivity | rewrite IH; lia]. Qed.

(** X13. [indent] adds two characters for every newline of its argument and
    neither adds nor removes a line. *)
Theorem indent_adds_two_per_line (content : string) :
  String.length (indent content) = String.length content + 2 * countNewlines content
  /\ countNewlines (indent content) = countNewlines content.
Proof.
  unfold indent. induction content as [|c content [IHlen IHlines]]; [split; reflexivity|].
  cbn [JS.replace_newlines countNewlines String.length].
  destruct (Ascii.eqb c (ascii_of_nat 10)) eqn:Hc.
  - rewrite length_append, countNewlines_app, IHlen, IHlines.
    split; [cbn; lia | reflexivity].
  - cbn [String.length countNewlines]. rewrite Hc, IHlen, IHlines. split; lia.
Qed.

Lemma indent_single_line (content : string) :
  countNewlines content = 0 -> indent content = content.
Proof.
  unfold indent. induction content as [|c content IH]; [reflexivity|].
  cbn [countNewlines JS.replace_newlines].
  destruct (Ascii.eqb c (ascii_of_nat 10)); [discriminate|].
  intros H. now rewrite IH.
Qed.

(** ** Anonymous record types and heritage clauses *)

Section Records.

Variable host : Host.
Variable options : ICompilerOptions.
Variable topNode : string.

Local Notation "'compile'" := (compileNode host options topNode).

(** X15. An anonymous record type whose members are fields compiles, when the
    types of the fields do, to an object with one entry line per field, in
    order, [.required()] on the entries of the fields without a question
    token; an entry of a single line stands behind exactly two spaces. *)
Theorem type_literal_of_fields p fields names props names1 :
  mapM (compileOptType compile) (map field_type fields) names = Return (props, names1) ->
  compile p (TypeLiteral (map fieldNode fields)) names
  = Return ("Joi.object().keys({" ++ JS.newline
            ++ JS.join "" (map (fun e => entryLine (renderEntry e)) (objectShape fields props))
            ++ "})",
            names1)
  /\ length (objectShape fields props) = length fields
  /\ (forall e, countNewlines (renderEntry e) = 0 ->
                entryLine (renderEntry e) = "  " ++ renderEntry e ++ "," ++ JS.newline).
Proof.
  intros Hprops. split; [|split].
  - cbn [compileNode]. unfold _compileTypeLiteralNode.
    rewrite (bind_Return _ _ _ _ _ (fields_compile _ _ _ _ _ _ _ Hprops)).
    cbv beta. now rewrite map_map.
  - apply objectShape_length. rewrite (mapM_length _ _ _ _ _ Hprops). apply length_map.
  - intros e He. unfold entryLine. now rewrite indent_single_line.
Qed.

(** X16. How the inherited types are grouped into heritage clauses does not
    matter: two record-type declarations that differ only in their clauses and
    name the same inherited types in the same order compile alike. *)
Theorem heritage_grouping_irrelevant p jsDocTags name members clauses clauses' names :
  inheritedTypes clauses = inheritedTypes clauses' ->
  compile p (InterfaceDeclaration jsDocTags name members clauses) names
  = compile p (InterfaceDeclaration jsDocTags name members clauses') names.
Proof.
  intros H. cbn [compileNode]. unfold _compileInterfaceDeclaration.
  destruct (negb (hasTag jsDocTags "schema")); [reflexivity|].
  rewrite !bind_unfold.
  destruct (mapM (compile false) members names) as [[compiled n1]|e]; [|reflexivity].
  now rewrite !bind_unfold, !compileHeritageClauses_inherited, H.
Qed.

End Records.

(** ** Declarations and the exported names *)

Section Fragments.

Variable host : Host.
Variable options : ICompilerOptions.
Variable topNode : string.

Local Notation "'compile'" := (compileNode host options topNode).

(** X17. A declaration exports its name exactly when it gives a fragment:
    compiling an enumeration, a record type or an alias either gives the empty
    fragment and leaves the exported names alone, or gives
    [export const Name = ... .strict();] and pushes [Name], once, behind the
    names there were. *)
Theorem declaration_exports_what_it_emits p node names r names' :
  plainDeclaration node = true ->
  compile p node names = Return (r, names') ->
  (r = "" /\ names' = names)
  \/ ((exists body,
         r = "export const " ++ declarationName node ++ " = " ++ body ++ ".strict();")
      /\ names' = (names ++ [declarationName node])%list).
Proof.
  destruct node; try discriminate; cbn [plainDeclaration declarationName compileNode];
    intros Hplain H.
  - (* EnumDeclaration *)
    unfold _compileEnumDeclaration in H.
    destruct (hasTag jsDocTags "schema"); cbn [negb] in H.
    + cbv [bind push_exportedName ret] in H. injection H as <- <-. right.
      split; [|reflexivity].
      exists ("Joi.valid("
              ++ JS.join ", " (map (fun m => getTextOfConstantValue host (constantValue m))
                                   members)
              ++ ")").
      now rewrite !append_assoc.
    + injection H as <- <-. now left.
  - (* InterfaceDeclaration *)
    apply andb_prop in Hplain as [Hmembers Hinherited].
    unfold _compileInterfaceDeclaration in H.
    destruct (hasTag jsDocTags "schema"); cbn [negb] in H;
      [|injection H as <- <-; now left].
    rewrite bind_unfold in H.
    destruct (mapM (compile false) members names) as [[compiled n1]|e] eqn:Ems;
      [|discriminate].
    rewrite bind_unfold, compileHeritageClauses_inherited in H.
    destruct (mapM (compile false) (inheritedTypes heritageClauses) n1)
      as [[extend n2]|e] eqn:Eext; [|discriminate].
    assert (Hn2 : n2 = names).
    { rewrite (mapM_noDeclarations _ _ _ _ _ _ _ _ Hinherited Eext).
      exact (mapM_noDeclarations _ _ _ _ _ _ _ _ Hmembers Ems). }
    destruct (JS.includes "Array" extend).
    + injection H as <- <-. now left.
    + cbv [bind push_exportedName ret] in H. injection H as <- <-. right.
      split; [|now rewrite Hn2].
      exists ("Joi.object()"
              ++ JS.join "" (map (fun e => ".concat(" ++ e ++ ")") extend)
              ++ ".keys({" ++ JS.newline
              ++ JS.join "" (map (fun n => "  " ++ indent n ++ "," ++ JS.newline)
                                 (filter (fun n => negb (String.eqb n ignoreNode)) compiled))
              ++ "})").
      now rewrite !append_assoc.
  - (* TypeAliasDeclaration *)
    unfold _compileTypeAliasDeclaration in H.
    destruct (hasTag jsDocTags "schema"); cbn [negb] in H;
      [|injection H as <- <-; now left].
    rewrite bind_unfold in H. cbv [push_exportedName] in H. rewrite bind_unfold in H.
    destruct (compile false node (names ++ [getName name0])%list) as [[compiled n1]|e] eqn:Et;
      [|discriminate].
    injection H as <- <-. right.
    split; [|exact (noDeclarations_keeps_names _ _ _ _ Hplain _ _ _ _ Et)].
    eexists. reflexivity.
Qed.

End Fragments.

(** * The further properties on example inputs *)

Section FurtherExamples.

Import Examples Samples.

Local Notation "'compile'" := (compileNode node_host defaultOptions root).

(** [Point], compiled after [Size] has been exported. *)
Lemma exported_names_only_grow_witness :
  exists added, ["Size"; "Point"] = (["Size"] ++ added)%list.
Proof.
  exact (exported_names_only_grow node_host defaultOptions root true point
           ["Size"] _ ["Size"; "Point"] eq_refl).
Defined.

(** An untagged interface with an unsupported member, a variable statement
    and a star export: only the preamble is left. *)
Lemma silent_file_is_preamble_witness :
  compile false (SourceFile root silentStatements) []
  = Return (preamble ++ JS.newline ++ JS.newline, []).
Proof.
  exact (silent_file_is_preamble node_host defaultOptions root false silentStatements []
           eq_refl).
Defined.

(** [string[]] *)
Lemma type_text_is_a_Joi_call_witness :
  JS.startsWith "Joi.array().items(Joi.string())" "Joi." = true
  /\ "Joi.array().items(Joi.string())" <> ""
  /\ JS.startsWith "Joi.array().items(Joi.string())" JS.dquote = false.
Proof.
  exact (type_text_is_a_Joi_call node_host defaultOptions root false
           (ArrayType StringKeyword) [] _ [] eq_refl eq_refl).
Defined.

(** [type Id = "A" | "B"] *)
Lemma type_alias_of_type_witness :
  compile true idAlias []
  = Return ("export const Id = " ++ idText ++ ".strict();", ["Id"]).
Proof.
  exact (type_alias_of_type node_host defaultOptions root true schemaTag (ident "Id")
           idType [] idText ["Id"] eq_refl eq_refl eq_refl).
Defined.

(** An index signature between two fields of an interface, ignored. *)
Lemma interface_drops_ignored_index_signature_witness :
  compileNode node_host ignoringIndexSignatures root true
    (InterfaceDeclaration schemaTag (ident "Counts") [total; indexSignature; label] None) []
  = compileNode node_host ignoringIndexSignatures root true
      (InterfaceDeclaration schemaTag (ident "Counts") [total; label] None) [].
Proof.
  exact (interface_drops_ignored_index_signature node_host ignoringIndexSignatures root true
           schemaTag (ident "Counts") [total] "[key: string]: number" [label] None []
           eq_refl).
Defined.

(** The same members in an anonymous record type. *)
Lemma type_literal_keeps_ignored_index_signature_witness :
  compileNode node_host ignoringIndexSignatures root false
    (TypeLiteral [total; indexSignature; label]) []
  = Return ("Joi.object().keys({" ++ JS.newline
            ++ "  'total': Joi.number().required()," ++ JS.newline
            ++ "  ," ++ JS.newline
            ++ "  'label': Joi.string()," ++ JS.newline
            ++ "})",
            []).
Proof.
  exact (type_literal_keeps_ignored_index_signature node_host ignoringIndexSignatures root
           false [total] "[key: string]: number" [label] []
           ["'total': Joi.number().required()"] [] ["'label': Joi.string()"] []
           eq_refl eq_refl eq_refl).
Defined.

(** [import { Foo as Bar } from './foo'] without inlining. *)
Lemma import_declaration_rewritten_witness :
  compile true importFoo []
  = Return ("import { " ++ JS.join ", " ["Foo as Bar"] ++ " } from '"
            ++ outPath node_host defaultOptions "./foo" ++ "'",
            []).
Proof.
  exact (import_declaration_rewritten node_host defaultOptions root true
           [ {| propertyName := Some "Foo"; name := "Bar" |} ] "'"%char "./foo"
           (Some (Some [fooFile])) [] eq_refl).
Defined.

(** [Point] followed by [Size]. *)
Lemma statements_compose_witness :
  exists a b,
    _compileSourceFileStatements compile [point; size] []
    = Return (a ++ (JS.newline ++ JS.newline) ++ b, ["Point"; "Size"])
    /\ _compileSourceFileStatements compile [point] [] = Return (a, ["Point"])
    /\ _compileSourceFileStatements compile [size] ["Point"] = Return (b, ["Point"; "Size"]).
Proof.
  eexists. eexists. split; [|split; reflexivity].
  exact (statements_compose node_host defaultOptions root [point] [size] [] _ ["Point"] _
           ["Point"; "Size"] eq_refl eq_refl).
Defined.

(** [StringList], which throws, between [Point] and [Size]. *)
Lemma statement_error_aborts_file_witness :
  compile false (SourceFile root [point; stringList; size]) []
  = Throw (notSupported "IndexSignature" "[index: number]: string").
Proof.
  exact (statement_error_aborts_file node_host defaultOptions root false root
           [point] stringList [size] [] _ ["Point"] _ eq_refl eq_refl).
Defined.

(** A field, then an index signature that is not ignored, in an interface that
    extends [Array]. *)
Lemma member_error_aborts_interface_witness :
  compile true
    (InterfaceDeclaration schemaTag (ident "Counts") [total; indexSignature; label]
       extendsArray) []
  = Throw (notSupported "IndexSignature" "[key: string]: number").
Proof.
  exact (member_error_aborts_interface node_host defaultOptions root true schemaTag
           (ident "Counts") [total] indexSignature [label] extendsArray [] _ [] _
           eq_refl eq_refl eq_refl).
Defined.

(** [import * as foo from './foo'] under [inlineImports]. *)
Lemma imported_file_inlined_witness :
  compileNode node_host inlining root true
    (ImportDeclaration (Some namespaceFoo) "'./foo'"
       (Some (Some [SourceFile "/project/foo.ts"
                      [ InterfaceDeclaration schemaTag (ident "Foo")
                          [ PropertySignature (ident "id") false (Some StringKeyword) ]
                          None ]]))) []
  = _compileSourceFileStatements (compileNode node_host inlining root)
      [ InterfaceDeclaration schemaTag (ident "Foo")
          [ PropertySignature (ident "id") false (Some StringKeyword) ] None ] [].
Proof.
  exact (imported_file_inlined node_host inlining root true (Some namespaceFoo) "'./foo'"
           "/project/foo.ts" _ [] eq_refl eq_refl eq_refl).
Defined.

(** [{ x: number; y: number; label?: string }] *)
Lemma type_literal_of_fields_witness :
  compile false (TypeLiteral (map fieldNode pointFields)) []
  = Return ("Joi.object().keys({" ++ JS.newline
            ++ "  'x': Joi.number().required()," ++ JS.newline
            ++ "  'y': Joi.number().required()," ++ JS.newline
            ++ "  'label': Joi.string()," ++ JS.newline
            ++ "})",
            []).
Proof.
  exact (proj1 (type_literal_of_fields node_host defaultOptions root false pointFields []
                  ["Joi.number()"; "Joi.number()"; "Joi.string()"] [] eq_refl)).
Defined.

(** [extends A, B] against [extends A] and [extends B]. *)
Lemma heritage_grouping_irrelevant_witness :
  compile true (InterfaceDeclaration schemaTag (ident "Point3") point3Members extendsAB) []
  = compile true (InterfaceDeclaration schemaTag (ident "Point3") point3Members
                    extendsAThenB) [].
Proof.
  exact (heritage_grouping_irrelevant node_host defaultOptions root true schemaTag
           (ident "Point3") point3Members extendsAB extendsAThenB [] eq_refl).
Defined.

(** [Point], compiled after [Size] has been exported: a fragment, and its name. *)
Lemma declaration_exports_what_it_emits_witness :
  (pointText = "" /\ ["Size"; "Point"] = ["Size"])
  \/ ((exists body, pointText = "export const " ++ "Point" ++ " = " ++ body ++ ".strict();")
      /\ ["Size"; "Point"] = (["Size"] ++ ["Point"])%list).
Proof.
  exact (declaration_exports_what_it_emits node_host defaultOptions root true point
           ["Size"] pointText ["Size"; "Point"] eq_refl eq_refl).
Defined.

End FurtherExamples.
